(** * cube: the step loop, tool dispatch and type-tagged serialization

    A shallow embedding of the Python package [cube] (modules [cube.base],
    [cube.core], [cube.tool] and [cube.environment]) together with the
    properties its specification states about them.

    Python objects are embedded as follows.
    - A value is a [pyvalue]; a [dict] with string keys is a [gmap string pyvalue],
      so two dicts are equal exactly when they hold the same items.
    - A call that may raise returns a [res]: [Ok v] or [Raise e].
    - The state that tasks and tools own is an abstract world [W]; a method of a
      task or a tool is a function [W -> res A * W].
    - What pydantic, PIL, base64, json and the import system do is not code of
      the package: it is taken as a parameter ([PyLib], the handlers and the
      import table of section [TypedBaseModel]). *)

From Stdlib Require Import Floats Ascii String.
From stdpp Require Import gmap strings list fin_maps pretty.

Set Warnings "-register-all".
Set Default Proof Using "Type".

(* ===================================================================== *)
(** * Python values, exceptions and results                               *)
(* ===================================================================== *)

(** A class object.  The tag written by the serializer only holds
    [__module__] and [__name__]; [class_serial] tells apart two class objects
    that carry the same pair (a class created inside a function, say). *)
Record pyclass := PyClass {
  class_module : string;
  class_name : string;
  class_serial : nat
}.

#[global] Instance pyclass_eq_dec : EqDecision pyclass.
Proof. solve_decision. Defined.

(** A [PIL.Image.Image]: its mode, its size and its raw pixel bytes. *)
Record Image := mkImage {
  im_mode : string;
  im_size : nat * nat;
  im_pixels : list Byte.byte
}.

Inductive pyvalue :=
| VNone
| VBool (b : bool)
| VInt (n : Z)
| VStr (s : string)
| VList (xs : list pyvalue)
| VDict (d : gmap string pyvalue)
| VModel (cls : pyclass) (fields : gmap string pyvalue)
| VImage (im : Image).

Abbreviation pydict := (gmap string pyvalue).

(** Python's truth value of an object ([bool(v)]); models and images define
    neither [__bool__] nor [__len__] and are always true. *)
Definition truthy (v : pyvalue) : bool :=
  match v with
  | VNone => false
  | VBool b => b
  | VInt n => negb (n =? 0)%Z
  | VStr s => negb (String.eqb s "")
  | VList xs => match xs with [] => false | _ => true end
  | VDict d => match map_to_list d with [] => false | _ => true end
  | VModel _ _ => true
  | VImage _ => true
  end.

(** Truth value of an optional string ([None] and the empty string are false). *)
Definition truthy_opt (o : option string) : bool :=
  match o with
  | None => false
  | Some s => negb (String.eqb s "")
  end.

(** [s.startswith(p)] *)
Fixpoint startswith (s p : string) {struct p} : bool :=
  match p with
  | EmptyString => true
  | String a p' =>
      match s with
      | EmptyString => false
      | String b s' => Ascii.eqb a b && startswith s' p'
      end
  end.

Arguments startswith : simpl never.

(** [s[n:]] *)
Fixpoint slice_from (n : nat) (s : string) : string :=
  match n with
  | O => s
  | S n' =>
      match s with
      | EmptyString => EmptyString
      | String _ s' => slice_from n' s'
      end
  end.

(** A raised exception: its class, whether that class derives from
    [Exception] (and not only from [BaseException]), and [str(e)]. *)
Record pyexc := PyExc {
  exc_class : string;
  exc_is_Exception : bool;
  exc_str : string
}.

Definition ValueError (msg : string) : pyexc := PyExc "ValueError" true msg.
Definition TypeError (msg : string) : pyexc := PyExc "TypeError" true msg.
Definition AttributeError (msg : string) : pyexc := PyExc "AttributeError" true msg.
Definition ModuleNotFoundError (msg : string) : pyexc := PyExc "ModuleNotFoundError" true msg.
Definition RecursionError (msg : string) : pyexc := PyExc "RecursionError" true msg.
Definition ValidationError (msg : string) : pyexc := PyExc "ValidationError" true msg.
Definition KeyboardInterrupt : pyexc := PyExc "KeyboardInterrupt" false "".

Inductive res (A : Type) :=
| Ok (a : A)
| Raise (e : pyexc).

Arguments Ok {A} a.
Arguments Raise {A} e.

#[global] Instance res_ret : MRet res := fun A a => Ok a.
#[global] Instance res_bind : MBind res := fun A B f m =>
  match m with
  | Ok a => f a
  | Raise e => Raise e
  end.

Definition is_Ok {A} (r : res A) : bool :=
  match r with
  | Ok _ => true
  | Raise _ => false
  end.

(* ===================================================================== *)
(** * cube.base: TypedBaseModel                                           *)
(* ===================================================================== *)

Module base.

(** [s.rsplit(".", 1)] unpacked into two names: the text before and after the
    last dot, or nothing when [s] holds no dot (the unpacking then raises). *)
Fixpoint rsplit_dot (s : string) : option (string * string) :=
  match s with
  | EmptyString => None
  | String c rest =>
      match rsplit_dot rest with
      | Some (m, n) => Some (String c m, n)
      | None => if Ascii.eqb c "."%char then Some (EmptyString, rest) else None
      end
  end.

Fixpoint has_dot (s : string) : bool :=
  match s with
  | EmptyString => false
  | String c rest => Ascii.eqb c "."%char || has_dot rest
  end.

(** [f"{cls.__module__}.{cls.__name__}"] *)
Definition type_path (cls : pyclass) : string :=
  class_module cls +:+ "." +:+ class_name cls.

(** A model instance: its runtime class and its field values. *)
Definition instance : Type := pyclass * pydict.

Section TypedBaseModel.

(** [importlib.import_module]: the module's attributes that are model classes,
    by name.  Any other attribute has no [model_validate] and fails the lookup
    in the same way as a missing one. *)
Variable import_module : string -> res (gmap string pyclass).

(** pydantic's own field-by-field serializer and validator of a class: the
    [handler] argument of the two wrap hooks. *)
Variable handler_serialize : pyclass -> pydict -> res pydict.
Variable handler_validate : pyclass -> pyvalue -> res instance.

Definition _serialize_with_type (self : instance) : res pydict :=
  data ← handler_serialize self.1 self.2;
  mret (<["_type" := VStr (type_path self.1)]> data).

(** The body of the wrap validator; [model_validate] is the validation entry
    point of the class the tag resolves to. *)
Definition _deserialize_with_type
    (model_validate : pyclass -> pyvalue -> res instance)
    (cls : pyclass) (value : pyvalue) : res instance :=
  match value with
  | VDict d =>
      match d !! "_type" with
      | Some tag =>
          let rest := delete "_type" d in
          match tag with
          | VStr type_path =>
              match rsplit_dot type_path with
              | Some (module_name, class_name) =>
                  module ← import_module module_name;
                  match module !! class_name with
                  | Some actual_cls => model_validate actual_cls (VDict rest)
                  | None =>
                      Raise (AttributeError
                               ("module " +:+ module_name +:+ " has no attribute " +:+ class_name))
                  end
              | None => Raise (ValueError "not enough values to unpack (expected 2, got 1)")
              end
          | _ => Raise (AttributeError "object has no attribute rsplit")
          end
      | None => handler_validate cls value
      end
  | _ => handler_validate cls value
  end.

(** [cls.model_validate(value)] for a subclass of TypedBaseModel: pydantic runs
    the wrap validator, which may call [model_validate] of the resolved class.
    [fuel] bounds the depth of that recursion. *)
Fixpoint model_validate (fuel : nat) (cls : pyclass) (value : pyvalue) : res instance :=
  match fuel with
  | O => Raise (RecursionError "maximum recursion depth exceeded")
  | S fuel' => _deserialize_with_type (model_validate fuel') cls value
  end.

End TypedBaseModel.

End base.

(* ===================================================================== *)
(** * cube.core: actions, contents, observations                         *)
(* ===================================================================== *)

(** What the package calls and does not define: PIL's PNG writer and reader,
    base64, [json.dumps] and pydantic's [model_dump_json]. *)
Class PyLib := {
  (** [data.save(buf, format="PNG"); buf.getvalue()] *)
  Image_save : Image -> res (list Byte.byte);
  (** [Image.open(io.BytesIO(b))] *)
  Image_open : list Byte.byte -> res Image;
  (** [base64.b64encode(b).decode("utf-8")] *)
  b64encode : list Byte.byte -> string;
  b64decode : string -> res (list Byte.byte);
  json_dumps : pyvalue -> res string;
  (** [m.model_dump_json(serialize_as_any=True)] *)
  model_dump_json : pyclass -> pydict -> res string
}.

Module core.

Record ActionSchema := mkActionSchema {
  name : string;
  description : string;
  parameters : pydict
}.

Record Action := mkAction {
  action_id : option string;
  action_name : string;
  arguments : pydict
}.

Definition _image_prefix : string := "data:image/png;base64,".

Record Content := mkContent {
  tool_call_id : option string;
  content_name : option string;
  data : pyvalue
}.

Section Content.

Context {lib : PyLib}.

(** [data.save] exists on images only: on any other object the attribute
    lookup raises. *)
Definition as_base64_image_str (data : pyvalue) : res string :=
  match data with
  | VImage im =>
      byte_arr ← Image_save im;
      mret (_image_prefix +:+ b64encode byte_arr)
  | _ => Raise (AttributeError "object has no attribute save")
  end.

(** The field serializer of [data]. *)
Definition serialize_data (data : pyvalue) : res string :=
  match data with
  | VStr s => Ok s
  | _ => as_base64_image_str data
  end.

(** The field validator of [data], run before pydantic's own validation. *)
Definition deserialize_data (v : pyvalue) : res pyvalue :=
  match v with
  | VStr s =>
      if startswith s _image_prefix then
        decoded_image ← b64decode (slice_from (String.length _image_prefix) s);
        im ← Image_open decoded_image;
        mret (VImage im)
      else Ok v
  | _ => Ok v
  end.

(** The declared type of [data]: [str | dict | list | BaseModel | Image.Image]. *)
Definition data_type (v : pyvalue) : bool :=
  match v with
  | VStr _ | VDict _ | VList _ | VModel _ _ | VImage _ => true
  | VNone | VBool _ | VInt _ => false
  end.

(** [Content(tool_call_id=.., name=.., data=..)]: pydantic runs the field
    validator on [data] and then checks the outcome against the declared type. *)
Definition Content_init (tool_call_id name : option string) (data : pyvalue) : res Content :=
  v ← deserialize_data data;
  if data_type v then Ok (mkContent tool_call_id name v)
  else Raise (ValidationError "1 validation error for Content: data").

(** [str(v)] of the values that reach the last branch of [to_message]: a
    string is itself; the other cases are what an unvalidated [data] can hold. *)
Definition py_str (v : pyvalue) : string :=
  match v with
  | VStr s => s
  | VNone => "None"
  | VBool true => "True"
  | VBool false => "False"
  | VInt n => pretty n
  | _ => "<object>"
  end.

Definition newline : string := String "010"%char EmptyString.

(** [f"##{name}\n{msg_content}"] when [name] is true, else [msg_content]. *)
Definition with_header (name : option string) (msg_content : string) : string :=
  if truthy_opt name then "##" +:+ default EmptyString name +:+ newline +:+ msg_content
  else msg_content.

(** The [content] entry of the message, before the role is chosen. *)
Definition msg_content (c : Content) : res pyvalue :=
  match data c with
  | VImage _ =>
      image_base64 ← as_base64_image_str (data c);
      let image_part :=
        VDict {[ "type" := VStr "image_url";
                 "image_url" := VDict {[ "url" := VStr image_base64 ]} ]} in
      if truthy_opt (content_name c)
      then Ok (VList [VDict {[ "type" := VStr "text";
                               "text" := VStr (default EmptyString (content_name c)) ]};
                      image_part])
      else Ok (VList [image_part])
  | VModel cls fields => s ← model_dump_json cls fields; mret (VStr s)
  | VDict _ | VList _ =>
      s ← json_dumps (data c);
      mret (VStr (with_header (content_name c) s))
  | _ => Ok (VStr (with_header (content_name c) (py_str (data c))))
  end.

Definition to_message (c : Content) : res pydict :=
  msg_content ← msg_content c;
  let role := if truthy_opt (tool_call_id c) then "tool" else "user" in
  let message : pydict := {[ "role" := VStr role; "content" := msg_content ]} in
  if truthy_opt (tool_call_id c)
  then Ok (<["tool_call_id" := VStr (default EmptyString (tool_call_id c))]> message)
  else Ok message.

(** An observation taken as a value: where the step loop builds and reads
    observations nothing mutates them. *)
Record Observation := mkObservation {
  contents : list Content
}.

Definition from_text (text : string) : res Observation :=
  c ← Content_init None None (VStr text);
  mret (mkObservation [c]).

Definition to_llm_messages (o : Observation) : res (list pydict) :=
  mapM to_message (contents o).

End Content.

Record EnvironmentOutput := mkEnvironmentOutput {
  obs : Observation;
  reward : float;
  done : bool;
  info : pydict
}.

(** ** Observations as objects: [__add__]

    [Observation.__add__] mutates, so here observations and the lists bound to
    their [contents] attribute are objects of a heap, named by addresses. *)
Record heap := mkHeap {
  (** the list object bound to the [contents] attribute of an observation *)
  obs_contents : gmap nat nat;
  (** the items of a list object *)
  lists : gmap nat (list Content)
}.

(** [o.contents], read through the heap. *)
Definition contents_of (h : heap) (o : nat) : option (list Content) :=
  l ← obs_contents h !! o;
  lists h !! l.

(** [self.contents += other.contents; return self]: the list object of
    [self] is extended in place by the items of the list of [other], bound to
    [self.contents] again, and [self] is returned.  [None]: an address that
    names no object. *)
Definition __add__ (self other : nat) (h : heap) : option (nat * heap) :=
  l_self ← obs_contents h !! self;
  l_other ← obs_contents h !! other;
  xs ← lists h !! l_self;
  ys ← lists h !! l_other;
  Some (self, mkHeap (<[self := l_self]> (obs_contents h))
                     (<[l_self := xs ++ ys]> (lists h))).

End core.

(* ===================================================================== *)
(** * cube.tool: Tool                                                      *)
(* ===================================================================== *)

Module tool.

Import core.

Section Tool.

Context {W : Type} {lib : PyLib}.

(** What [getattr] finds under a name: a callable method, or any other
    object.  A method may change the world and may raise. *)
Inductive attribute :=
| Method (f : pydict -> W -> res pyvalue * W)
| Object (v : pyvalue).

Definition attribute_truthy (a : attribute) : bool :=
  match a with
  | Method _ => true
  | Object v => truthy v
  end.

(** [getattr(obj, name, None)] read as a condition. *)
Definition found (a : option attribute) : bool :=
  match a with
  | Some x => attribute_truthy x
  | None => false
  end.

Record Tool := mkTool {
  (** [getattr(self.action_space, name)], the protocol class *)
  action_space : string -> option attribute;
  (** [str(self.action_space)] *)
  action_space_str : string;
  (** [getattr(self, name)]; the attributes of the object may change with its state *)
  self_attr : W -> string -> option attribute;
  (** [self.__class__.__name__] *)
  tool_class_name : string
}.

Definition unknown_action (self : Tool) (action : Action) : pyexc :=
  ValueError ("Action " +:+ action_name action +:+ " is not a part of "
              +:+ action_space_str self +:+ ".").

Definition not_implemented (self : Tool) (action : Action) : pyexc :=
  ValueError ("Action " +:+ action_name action +:+ " is not implemented in "
              +:+ tool_class_name self +:+ ".").

Definition get_action_method (self : Tool) (action : Action) (w : W) : res attribute :=
  if negb (found (action_space self (action_name action))) then
    Raise (unknown_action self action)
  else
    match self_attr self w (action_name action) with
    | Some fn => if attribute_truthy fn then Ok fn else Raise (not_implemented self action)
    | None => Raise (not_implemented self action)
    end.

(** [fn] called with the keyword arguments [kwargs]: calling an object that is
    no method raises TypeError. *)
Definition call (fn : attribute) (kwargs : pydict) (w : W) : res pyvalue * W :=
  match fn with
  | Method f => f kwargs w
  | Object _ => (Raise (TypeError "object is not callable"), w)
  end.

(** [Observation(contents=[Content(data=action_result, tool_call_id=action.id)])] *)
Definition observe (action : Action) (action_result : pyvalue) : res Observation :=
  c ← Content_init (action_id action) None action_result;
  mret (mkObservation [c]).

Definition error_text (action : Action) (e : pyexc) : string :=
  "Error executing action " +:+ action_name action +:+ ": " +:+ exc_str e.

(** [logger.exception] writes a log record and changes nothing the model
    holds; it is left out. *)
Definition execute_action (self : Tool) (action : Action) (w : W) : res Observation * W :=
  match get_action_method self action w with
  | Raise e => (Raise e, w)
  | Ok fn =>
      let '(r, w') := call fn (arguments action) w in
      match r with
      | Ok v => (observe action (if truthy v then v else VStr "Success"), w')
      | Raise e =>
          if exc_is_Exception e then (observe action (VStr (error_text action e)), w')
          else (Raise e, w')
      end
  end.

End Tool.

Arguments attribute : clear implicits.
Arguments Tool : clear implicits.

End tool.

(* ===================================================================== *)
(** * cube.environment: Environment.step                                  *)
(* ===================================================================== *)

Module environment.

Import core.

Definition STOP_ACTION : ActionSchema :=
  mkActionSchema "final_step" "Stop the task execution." ∅.

(** The observation that [Observation.from_text("Task finished by the agent.")]
    evaluates to. *)
Definition stop_observation : Observation :=
  mkObservation [mkContent None None (VStr "Task finished by the agent.")].

Section Environment.

Context {W : Type} {lib : PyLib}.

(** The members of a task that [step] uses. *)
Record Task := mkTask {
  validate_per_step : bool;
  validate_task : Observation -> W -> res (float * pydict) * W;
  obs_postprocess : Observation -> W -> res Observation * W;
  finished : W -> res bool * W;
  accept_agent_stop : W -> res bool * W
}.

Record AbstractTool := mkAbstractTool {
  execute_action : Action -> W -> res Observation * W
}.

Record Environment := mkEnvironment {
  task : Task;
  tool : AbstractTool
}.

(** A [cube.tool.Tool] seen through the interface the environment holds. *)
Definition of_tool (t : tool.Tool W) : AbstractTool :=
  mkAbstractTool (tool.execute_action t).

(** Every call [step] makes on the task or the tool, with what it returned. *)
Inductive event :=
| EAcceptStop (r : res bool)
| EExecute (a : Action) (r : res Observation)
| EFinished (r : res bool)
| EValidate (o : Observation) (r : res (float * pydict))
| EPostprocess (o : Observation) (r : res Observation).

(** The world together with the calls made so far, oldest first. *)
Definition state : Type := W * list event.

Definition M (A : Type) : Type := state -> res A * state.

Definition ret {A} (a : A) : M A := fun s => (Ok a, s).

Definition bind {A B} (m : M A) (k : A -> M B) : M B := fun s =>
  let '(r, s') := m s in
  match r with
  | Ok a => k a s'
  | Raise e => (Raise e, s')
  end.

Definition lift {A} (r : res A) : M A := fun s => (r, s).

(** A call on the task or the tool: it acts on the world and is recorded. *)
Definition invoke {A} (f : W -> res A * W) (ev : res A -> event) : M A := fun s =>
  let '(r, w') := f s.1 in (r, (w', s.2 ++ [ev r])).

Notation "'let*' x ':=' y 'in' z" := (bind y (fun x => z))
  (at level 10, x name, y at level 200, z at level 200, only parsing).

Variable self : Environment.

(** [action.name == STOP_ACTION.name and self.task.accept_agent_stop()]:
    the task is asked only when the name matches. *)
Definition stop_requested (action : Action) : M bool :=
  if String.eqb (action_name action) (name STOP_ACTION)
  then invoke (accept_agent_stop (task self)) EAcceptStop
  else ret false.

(** The [for] loop of [step]: the observations gathered, and [done]. *)
Fixpoint step_loop (actions : list Action) (tool_results : list Observation)
  : M (list Observation * bool) :=
  match actions with
  | [] => ret (tool_results, false)
  | action :: rest =>
      let* stop := stop_requested action in
      if (stop : bool) then
        let* o := lift (from_text "Task finished by the agent.") in
        ret (tool_results ++ [o], true)
      else
        let* o := invoke (execute_action (tool self) action) (EExecute action) in
        step_loop rest (tool_results ++ [o])
  end.

(** [step] takes one action or a list of actions. *)
Inductive step_input :=
| One (a : Action)
| Many (l : list Action).

Definition normalize (action : step_input) : list Action :=
  match action with
  | One a => [a]
  | Many l => l
  end.

(** [Observation(contents=[c for o in tool_results for c in o.contents])] *)
Definition merge (tool_results : list Observation) : Observation :=
  mkObservation (concat (map contents tool_results)).

(** What [step] does once the loop is over. *)
Definition step_finish (tool_results : list Observation) (done : bool)
  : M EnvironmentOutput :=
  let obs := merge tool_results in
  let* done := (if done then ret true else invoke (finished (task self)) EFinished) in
  let* ri := (if validate_per_step (task self) || done
         then invoke (validate_task (task self) obs) (EValidate obs)
         else ret (0%float, ∅)) in
  let* obs' := invoke (obs_postprocess (task self) obs) (EPostprocess obs) in
  ret (mkEnvironmentOutput obs' ri.1 done ri.2).

Definition step (action : step_input) : M EnvironmentOutput :=
  let* rd := step_loop (normalize action) [] in
  step_finish rd.1 rd.2.

(** The actions handed to the tool, in the order of the calls. *)
Definition dispatched (tr : list event) : list Action :=
  omap (fun ev => match ev with EExecute a _ => Some a | _ => None end) tr.

(** The calls of [validate_task], in order: the observation passed and the
    result. *)
Definition validations (tr : list event) : list (Observation * res (float * pydict)) :=
  omap (fun ev => match ev with EValidate o r => Some (o, r) | _ => None end) tr.

End Environment.

Arguments Task : clear implicits.
Arguments AbstractTool : clear implicits.
Arguments Environment : clear implicits.
Arguments state : clear implicits.

End environment.

(* ===================================================================== *)
(** * Worked instances                                                    *)
(* ===================================================================== *)

(** Small concrete classes, tools and tasks on which the statements below are
    evaluated. *)
Module samples.

Import core.

(** ** A module [agents] with a base class and two subclasses *)

Definition AgentConfig : pyclass := PyClass "agents" "AgentConfig" 0.
Definition ReactAgentConfig : pyclass := PyClass "agents" "ReactAgentConfig" 1.
(** A subclass created inside a function of [agents]: the module has no
    attribute of its name. *)
Definition LocalAgentConfig : pyclass := PyClass "agents" "LocalAgentConfig" 2.

Definition import_agents (module_name : string) : res (gmap string pyclass) :=
  if String.eqb module_name "agents"
  then Ok {[ "AgentConfig" := AgentConfig; "ReactAgentConfig" := ReactAgentConfig ]}
  else Raise (ModuleNotFoundError ("No module named " +:+ module_name)).

(** Classes whose fields are plain values: the field-by-field serializer
    returns the fields, and the validator builds an instance of its class from
    a dict. *)
Definition plain_serialize (cls : pyclass) (fields : pydict) : res pydict := Ok fields.

Definition plain_validate (cls : pyclass) (value : pyvalue) : res base.instance :=
  match value with
  | VDict d => Ok (cls, d)
  | VModel c fields => Ok (c, fields)
  | _ => Raise (ValidationError "Input should be a valid dictionary or instance")
  end.

Definition react_config : base.instance := (ReactAgentConfig, {[ "max_steps" := VInt 10 ]}).
Definition local_config : base.instance := (LocalAgentConfig, {[ "max_steps" := VInt 10 ]}).

(** ** A stand-in for the libraries

    PNG encoding keeps the raw pixel bytes and base64 is replaced by the
    one-to-one reading of bytes as characters; [json.dumps] covers the scalar
    values. *)
Definition lib : PyLib := {|
  Image_save im := Ok (im_pixels im);
  Image_open b := Ok (mkImage "L" (length b, 1) b);
  b64encode b := string_of_list_byte b;
  b64decode s := Ok (list_byte_of_string s);
  json_dumps v :=
    match v with
    | VNone => Ok "null"
    | VBool true => Ok "true"
    | VBool false => Ok "false"
    | VInt n => Ok (pretty n)
    | _ => Raise (TypeError "Object is not JSON serializable")
    end;
  model_dump_json cls fields := Raise (TypeError "Object is not JSON serializable")
|}.

(** ** Contents and a heap with two observations *)

Definition hello : Content := mkContent None None (VStr "hello").
Definition world : Content := mkContent None None (VStr "world").

(** Observation 0 holds the list object 10, observation 1 the list object 11. *)
Definition two_observations : heap :=
  mkHeap {[ 0 := 10; 1 := 11 ]} {[ 10 := [hello]; 11 := [world] ]}.

(** ** A tool and two tasks; the world is the number of clicks so far *)

(** The protocol [BrowserSpace] declares five actions. *)
Definition browser_space (name : string) : option (tool.attribute nat) :=
  if bool_decide (name ∈ ["click"; "count"; "crash"; "halt"; "scroll"])
  then Some (tool.Method (fun _ w => (Ok VNone, w)))
  else None.

(** The class [Browser] implements four of them: [click] returns nothing,
    [count] returns an int, [crash] raises a ValueError and [halt] raises
    KeyboardInterrupt. *)
Definition browser_attr (w : nat) (name : string) : option (tool.attribute nat) :=
  if String.eqb name "click" then Some (tool.Method (fun _ w => (Ok VNone, S w)))
  else if String.eqb name "count" then Some (tool.Method (fun _ w => (Ok (VInt 42), w)))
  else if String.eqb name "crash" then
    Some (tool.Method (fun _ w => (Raise (ValueError "boom"), w)))
  else if String.eqb name "halt" then
    Some (tool.Method (fun _ w => (Raise KeyboardInterrupt, w)))
  else None.

Definition browser : tool.Tool nat :=
  tool.mkTool browser_space "BrowserSpace" browser_attr "Browser".

Definition click : Action := mkAction (Some "call_1") "click" ∅.
Definition count : Action := mkAction (Some "call_2") "count" ∅.
Definition crash : Action := mkAction (Some "call_3") "crash" ∅.
Definition halt : Action := mkAction (Some "call_4") "halt" ∅.
Definition scroll : Action := mkAction (Some "call_5") "scroll" ∅.
Definition fly : Action := mkAction (Some "call_6") "fly" ∅.
Definition final_step : Action := mkAction (Some "call_7") "final_step" ∅.

(** A task that accepts the stop of the agent, and one that declines it. *)
Definition solved : float * pydict := (1%float, {[ "solved" := VBool true ]}).

Definition accepting_task : environment.Task nat :=
  environment.mkTask false
    (fun o w => (Ok solved, w))
    (fun o w => (Ok o, w))
    (fun w => (Ok false, w))
    (fun w => (Ok true, w)).


Definition accepting_env : environment.Environment nat :=
  environment.mkEnvironment accepting_task (@environment.of_tool nat lib browser).


End samples.

(* ===================================================================== *)
(** * More of the package: trajectories, the action catalogue, the episode *)
(* ===================================================================== *)

(** ** cube.core: Trajectory *)
Module trajectory.

Import core.

Record AgentOutput := mkAgentOutput {
  actions : list Action
}.

(** An element of [steps]: [EnvironmentOutput | AgentOutput]. *)
Inductive item :=
| EnvItem (e : EnvironmentOutput)
| AgentItem (a : AgentOutput).

Record Trajectory := mkTrajectory {
  steps : list item;
  metadata : pydict
}.

(** [self.steps.append(item)]: the trajectory afterwards. *)
Definition append (self : Trajectory) (x : item) : Trajectory :=
  mkTrajectory (steps self ++ [x]) (metadata self).

(** The [for] loop of [last_env_step] over the steps it is given, and the
    [raise] that follows it. *)
Fixpoint scan (l : list item) : res EnvironmentOutput :=
  match l with
  | [] => Raise (ValueError "No EnvironmentOutput found in the trajectory.")
  | EnvItem e :: _ => Ok e
  | AgentItem _ :: rest => scan rest
  end.

Definition last_env_step (self : Trajectory) : res EnvironmentOutput :=
  scan (reverse (steps self)).

Definition is_agent (x : item) : Prop :=
  match x with
  | AgentItem _ => True
  | EnvItem _ => False
  end.

End trajectory.

(** ** cube.tool: Tool.get_actions *)
Module catalogue.

Import core tool.

Section get_actions.

Context {W : Type}.

(** [ActionSchema.from_function], which rests on litellm. *)
Variable from_function : attribute W -> res ActionSchema.

(** [getattr(self, name)], without a default. *)
Definition getattr_self (self : Tool W) (w : W) (name : string) : res (attribute W) :=
  match self_attr self w name with
  | Some fn => Ok fn
  | None => Raise (AttributeError ("object has no attribute " +:+ name))
  end.

(** [members] is [get_protocol_members(self.action_space)] in the order the
    comprehension walks it. *)
Definition get_actions (self : Tool W) (members : list string) (w : W)
  : res (list ActionSchema) :=
  mapM (fun name => fn ← getattr_self self w name; from_function fn) members.

End get_actions.

End catalogue.

(** ** cube.environment: reset and close; the defaults of Task *)
Module episode.

Import core environment.

Section episode.

Context {W : Type}.

(** The members of the task and the tool that [reset] and [close] call. *)
Record Hooks := mkHooks {
  tool_reset : W -> res unit * W;
  task_setup : W -> res (Observation * pydict) * W;
  task_teardown : W -> res unit * W;
  tool_close : W -> res unit * W
}.

Inductive call :=
| CReset (r : res unit)
| CSetup (r : res (Observation * pydict))
| CTeardown (r : res unit)
| CClose (r : res unit).

(** [self.tool.reset(); obs, info = self.task.setup(self.tool);
    return EnvironmentOutput(obs=obs, info=info)], with the calls made. *)
Definition reset (self : Hooks) (w : W) : res EnvironmentOutput * W * list call :=
  let '(r1, w1) := tool_reset self w in
  match r1 with
  | Raise e => (Raise e, w1, [CReset r1])
  | Ok _ =>
      let '(r2, w2) := task_setup self w1 in
      match r2 with
      | Raise e => (Raise e, w2, [CReset r1; CSetup r2])
      | Ok oi => (Ok (mkEnvironmentOutput oi.1 0%float false oi.2), w2,
                  [CReset r1; CSetup r2])
      end
  end.

(** [self.task.teardown(); self.tool.close()], with the calls made. *)
Definition close (self : Hooks) (w : W) : res unit * W * list call :=
  let '(r1, w1) := task_teardown self w in
  match r1 with
  | Raise e => (Raise e, w1, [CTeardown r1])
  | Ok _ =>
      let '(r2, w2) := tool_close self w1 in
      (r2, w2, [CTeardown r1; CClose r2])
  end.


End episode.

Arguments Hooks : clear implicits.

(** *** Readings of the trace of [step] *)

(** The contents of the observations the tool returned, in the order of the
    calls. *)
Definition observed (tr : list event) : list Content :=
  concat (omap (fun ev => match ev with
                          | EExecute _ (Ok o) => Some (contents o)
                          | _ => None
                          end) tr).

(** Whether the task accepted a stop. *)
Definition stop_accepted (tr : list event) : bool :=
  existsb (fun ev => match ev with EAcceptStop (Ok true) => true | _ => false end) tr.

(** What the calls of [finished] returned. *)
Definition finished_calls (tr : list event) : list (res bool) :=
  omap (fun ev => match ev with EFinished r => Some r | _ => None end) tr.





Definition is_stop (a : Action) : bool :=
  String.eqb (action_name a) (name STOP_ACTION).


End episode.

(** ** More worked instances *)
Module samples_more.

Import core.

Definition greeting : EnvironmentOutput :=
  mkEnvironmentOutput (mkObservation [samples.hello]) 0%float false ∅.

Definition farewell : EnvironmentOutput :=
  mkEnvironmentOutput (mkObservation [samples.world]) 1%float true ∅.

Definition one_click : trajectory.AgentOutput :=
  trajectory.mkAgentOutput [samples.click].

Definition run : trajectory.Trajectory :=
  trajectory.mkTrajectory
    [trajectory.EnvItem greeting; trajectory.AgentItem one_click] ∅.

(** A one-pixel image. *)
Definition pixel : Image := mkImage "L" (1, 1) [Byte.x2a].

(** A browser whose attribute [count] is a number and no method. *)
Definition counter_attr (w : nat) (name : string) : option (tool.attribute nat) :=
  if String.eqb name "count" then Some (tool.Object (VInt 7)) else None.

Definition counter : tool.Tool nat :=
  tool.mkTool samples.browser_space "BrowserSpace" counter_attr "Counter".

(** A stand-in for litellm: the schema of a method carries no text, and an
    object that is no method has no schema. *)
Definition schema_of (fn : tool.attribute nat) : res ActionSchema :=
  match fn with
  | tool.Method _ => Ok (mkActionSchema "method" "" ∅)
  | tool.Object _ => Raise (TypeError "object is not a function")
  end.

(** An episode whose teardown fails. *)
Definition leaky : episode.Hooks nat :=
  episode.mkHooks
    (fun w => (Ok tt, w))
    (fun w => (Ok (mkObservation [samples.hello], ∅), w))
    (fun w => (Raise (ValueError "teardown failed"), w))
    (fun w => (Ok tt, S w)).

(** A task that validates after every step. *)
Definition eager_task : environment.Task nat :=
  environment.mkTask true
    (fun o w => (Ok samples.solved, w))
    (fun o w => (Ok o, w))
    (fun w => (Ok false, w))
    (fun w => (Ok true, w)).

Definition eager_env : environment.Environment nat :=
  environment.mkEnvironment eager_task
    (@environment.of_tool nat samples.lib samples.browser).

(** The members the protocol [BrowserSpace] declares
    ([get_protocol_members]). *)
Definition browser_members : list string :=
  ["click"; "count"; "crash"; "halt"; "scroll"].

(** [getattr] on the protocol class and on the browser object as Python
    answers it: besides what the class body binds, every class and every
    object has [__init__], and calling [__init__] of the browser without
    arguments returns nothing. *)
Definition python_space (name : string) : option (tool.attribute nat) :=
  if String.eqb name "__init__"
  then Some (tool.Method (fun _ w => (Ok VNone, w)))
  else samples.browser_space name.

Definition python_attr (w : nat) (name : string) : option (tool.attribute nat) :=
  if String.eqb name "__init__"
  then Some (tool.Method (fun _ w => (Ok VNone, w)))
  else samples.browser_attr w name.

Definition python_browser : tool.Tool nat :=
  tool.mkTool python_space "BrowserSpace" python_attr "Browser".

Definition init : Action := mkAction (Some "call_8") "__init__" ∅.


End samples_more.

(* ===================================================================== *)
(** * Properties of cube.base                                             *)
(* ===================================================================== *)

Section base_properties.

Import base.

Variable import_module : string -> res (gmap string pyclass).
Variable handler_serialize : pyclass -> pydict -> res pydict.
Variable handler_validate : pyclass -> pyvalue -> res instance.

Local Abbreviation model_validate := (model_validate import_module handler_validate).
Local Abbreviation _serialize_with_type := (_serialize_with_type handler_serialize).

Lemma rsplit_dot_no_dot (s : string) :
  has_dot s = false -> rsplit_dot s = None.
Proof.
  induction s as [|c s IH]; simpl; [done|].
  intros [Hc Hs]%orb_false_iff. by rewrite IH, Hc.
Qed.

Lemma rsplit_dot_app (m n : string) :
  has_dot n = false -> rsplit_dot (m +:+ "." +:+ n) = Some (m, n).
Proof.
  intros Hn. induction m as [|c m IH]; simpl.
  - change ("" +:+ n) with n. by rewrite (rsplit_dot_no_dot n Hn).
  - by rewrite IH.
Qed.

Lemma rsplit_dot_type_path (cls : pyclass) :
  has_dot (class_name cls) = false ->
  rsplit_dot (type_path cls) = Some (class_module cls, class_name cls).
Proof. apply rsplit_dot_app. Qed.

(** Without the reserved key the wrap validator hands the value to the
    handler of the declared class. *)
Lemma model_validate_untagged (fuel : nat) (cls : pyclass) (d : pydict) :
  d !! "_type" = None ->
  model_validate (S fuel) cls (VDict d) = handler_validate cls (VDict d).
Proof. intros Hd. simpl. by rewrite Hd. Qed.

Lemma model_validate_not_dict (fuel : nat) (cls : pyclass) (v : pyvalue) :
  (forall d, v <> VDict d) ->
  model_validate (S fuel) cls v = handler_validate cls v.
Proof. intros Hv. destruct v; simpl; try done. by destruct (Hv d). Qed.

(** The recursion of [model_validate] is at most two calls deep: the tag is
    removed before the class it names is asked. *)
Lemma model_validate_fuel (fuel : nat) (cls : pyclass) (v : pyvalue) :
  model_validate (S (S fuel)) cls v = model_validate 2 cls v.
Proof.
  destruct v; try done.
  change (_deserialize_with_type import_module handler_validate
            (model_validate (S fuel)) cls (VDict d)
          = _deserialize_with_type import_module handler_validate
            (model_validate 1) cls (VDict d)).
  unfold _deserialize_with_type.
  destruct (d !! "_type") as [[]|]; try done.
  destruct (rsplit_dot s) as [[m n]|]; try done.
  destruct (import_module m) as [md|]; [|done].
  unfold mbind, res_bind.
  destruct (md !! n); [|done].
  by rewrite !model_validate_untagged by apply lookup_delete_eq.
Qed.

(** C1, as the code has it.  Let V be an instance whose class is found under
    its [__name__] (a name without a dot) in the module [__module__] names,
    whose field serializer yields a mapping [data] without the key [_type], and
    whose field validator turns [data] back into V.  Then serializing V yields
    [data] plus the key [_type] holding the qualified name of V's runtime
    class, and validating that mapping against any declared class yields V
    itself: same class, same fields.  A mapping without the key is validated
    against the declared class directly. *)
Theorem typed_roundtrip
    (V : instance) (declared : pyclass) (data : pydict)
    (module : gmap string pyclass) (fuel : nat) :
  handler_serialize V.1 V.2 = Ok data ->
  data !! "_type" = None ->
  has_dot (class_name V.1) = false ->
  import_module (class_module V.1) = Ok module ->
  module !! class_name V.1 = Some V.1 ->
  handler_validate V.1 (VDict data) = Ok V ->
  (exists out,
      _serialize_with_type V = Ok out
      /\ out !! "_type" = Some (VStr (type_path V.1))
      /\ model_validate (S (S fuel)) declared (VDict out) = Ok V)
  /\ (forall (cls : pyclass) (m : pydict),
        m !! "_type" = None ->
        model_validate (S fuel) cls (VDict m) = handler_validate cls (VDict m)).
Proof.
  intros Hser Hkey Hdot Himp Hattr Hval. split.
  - exists (<["_type" := VStr (type_path V.1)]> data). split; [|split].
    + unfold base._serialize_with_type. by rewrite Hser.
    + apply lookup_insert_eq.
    + rewrite model_validate_fuel. simpl.
      rewrite lookup_insert_eq, (rsplit_dot_type_path _ Hdot), Himp. simpl.
      rewrite Hattr, lookup_delete_eq. simpl.
      by rewrite delete_insert_eq, (delete_id _ _ Hkey).
  - intros cls m Hm. by apply model_validate_untagged.
Qed.

End base_properties.

(** The round trip on an instance of [ReactAgentConfig], declared as
    [AgentConfig]. *)
Lemma typed_roundtrip_witness :
  (exists out,
      base._serialize_with_type samples.plain_serialize samples.react_config = Ok out
      /\ out !! "_type" = Some (VStr "agents.ReactAgentConfig")
      /\ base.model_validate samples.import_agents samples.plain_validate 2
           samples.AgentConfig (VDict out) = Ok samples.react_config)
  /\ (forall (cls : pyclass) (m : pydict),
        m !! "_type" = None ->
        base.model_validate samples.import_agents samples.plain_validate 1 cls (VDict m)
        = samples.plain_validate cls (VDict m)).
Proof.
  apply (typed_roundtrip samples.import_agents samples.plain_serialize
           samples.plain_validate samples.react_config samples.AgentConfig
           {[ "max_steps" := VInt 10 ]}
           {[ "AgentConfig" := samples.AgentConfig;
              "ReactAgentConfig" := samples.ReactAgentConfig ]} 0);
    reflexivity.
Defined.

(** C1 as stated fails on a class that its module does not hold under its
    name: the mapping is written with the tag [agents.LocalAgentConfig], and
    reading it back raises instead of returning the instance. *)
Lemma typed_roundtrip_unresolvable :
  exists out,
    base._serialize_with_type samples.plain_serialize samples.local_config = Ok out
    /\ out !! "_type" = Some (VStr "agents.LocalAgentConfig")
    /\ base.model_validate samples.import_agents samples.plain_validate 2
         samples.AgentConfig (VDict out)
       = Raise (AttributeError "module agents has no attribute LocalAgentConfig").
Proof.
  eexists. split; [reflexivity|]. split; reflexivity.
Qed.

(* ===================================================================== *)
(** * Properties of cube.core                                             *)
(* ===================================================================== *)

Section core_properties.

Import core.

Context {lib : PyLib}.

Lemma startswith_image_prefix (s : string) :
  startswith (_image_prefix +:+ s) _image_prefix = true.
Proof. reflexivity. Qed.

Lemma strip_image_prefix (s : string) :
  slice_from (String.length _image_prefix) (_image_prefix +:+ s) = s.
Proof. reflexivity. Qed.

(** Text is serialized as it is. *)
Lemma serialize_data_text (s : string) : serialize_data (VStr s) = Ok s.
Proof. reflexivity. Qed.

(** An image is serialized as the prefix followed by the base64 text of its
    PNG bytes. *)
Lemma serialize_data_image (im : Image) (png : list Byte.byte) :
  Image_save im = Ok png ->
  serialize_data (VImage im) = Ok (_image_prefix +:+ b64encode png).
Proof. intros Hsave. simpl. by rewrite Hsave. Qed.

(** A string without the prefix is kept. *)
Lemma deserialize_data_text (s : string) :
  startswith s _image_prefix = false ->
  deserialize_data (VStr s) = Ok (VStr s).
Proof. intros Hp. unfold deserialize_data. by rewrite Hp. Qed.

(** A string with the prefix is decoded and opened as an image. *)
Lemma deserialize_data_image (s : string) :
  deserialize_data (VStr (_image_prefix +:+ s))
  = (decoded_image ← b64decode s; im ← Image_open decoded_image; mret (VImage im)).
Proof.
  unfold deserialize_data.
  by rewrite startswith_image_prefix, strip_image_prefix.
Qed.

(** Writing an image and reading it back gives the image the codec opens from
    the PNG bytes that were written. *)
Lemma image_roundtrip (im im' : Image) (png : list Byte.byte) (s : string) :
  Image_save im = Ok png ->
  b64decode (b64encode png) = Ok png ->
  Image_open png = Ok im' ->
  serialize_data (VImage im) = Ok s ->
  deserialize_data (VStr s) = Ok (VImage im').
Proof.
  intros Hsave Hb64 Hopen Hser.
  rewrite (serialize_data_image im png Hsave) in Hser. injection Hser as <-.
  rewrite deserialize_data_image, Hb64. simpl. by rewrite Hopen.
Qed.

(** C5, where the code departs from it: the field serializer treats every
    value that is not a string as an image, so a mapping, a sequence or a
    nested model is not written in a form of its own; the call raises. *)
Theorem serialize_data_not_image :
  (forall d : pydict,
      serialize_data (VDict d) = Raise (AttributeError "object has no attribute save"))
  /\ (forall xs : list pyvalue,
      serialize_data (VList xs) = Raise (AttributeError "object has no attribute save"))
  /\ (forall (cls : pyclass) (fields : pydict),
      serialize_data (VModel cls fields)
      = Raise (AttributeError "object has no attribute save")).
Proof. by repeat split. Qed.

Lemma lookup_message_role (role : string) (mc : pyvalue) :
  ({[ "role" := VStr role; "content" := mc ]} : pydict) !! "role" = Some (VStr role).
Proof. by rewrite lookup_insert_eq. Qed.

Lemma lookup_message_tool_call_id (role : string) (mc : pyvalue) :
  ({[ "role" := VStr role; "content" := mc ]} : pydict) !! "tool_call_id" = None.
Proof.
  rewrite lookup_insert_ne by done. by rewrite lookup_singleton_ne.
Qed.

(** C10.  Whenever the message content can be rendered, [to_message] returns a
    message.  With the empty string as [tool_call_id] its role is [user] and
    it has no key [tool_call_id]; the role [tool] and the key occur exactly
    when [tool_call_id] is a string that is not empty, and the key then holds
    that string. *)
Theorem to_message_role (c : Content) (mc : pyvalue) :
  msg_content c = Ok mc ->
  exists m : pydict,
    to_message c = Ok m
    /\ m !! "content" = Some mc
    /\ (tool_call_id c = Some EmptyString ->
        m !! "role" = Some (VStr "user") /\ m !! "tool_call_id" = None)
    /\ (m !! "role" = Some (VStr "tool") \/ is_Some (m !! "tool_call_id") ->
        exists s, tool_call_id c = Some s /\ s <> EmptyString)
    /\ (forall s, tool_call_id c = Some s -> s <> EmptyString ->
        m !! "role" = Some (VStr "tool") /\ m !! "tool_call_id" = Some (VStr s)).
Proof.
  intros Hmc. unfold to_message. rewrite Hmc. simpl.
  destruct (tool_call_id c) as [[|a s]|] eqn:Hid; simpl.
  - eexists; split; [done|]. split; [|split; [|split]].
    + rewrite lookup_insert_ne by done. apply lookup_singleton_eq.
    + intros _. by rewrite lookup_message_role, lookup_message_tool_call_id.
    + rewrite lookup_message_role, lookup_message_tool_call_id.
      intros [[=]|[? [=]]].
    + intros ? [= <-] Hne. done.
  - eexists; split; [done|]. split; [|split; [|split]].
    + rewrite lookup_insert_ne by done. rewrite lookup_insert_ne by done.
      apply lookup_singleton_eq.
    + intros [=].
    + intros _. by eexists.
    + intros ? [= <-] _. split.
      * rewrite lookup_insert_ne by done. apply lookup_insert_eq.
      * apply lookup_insert_eq.
  - eexists; split; [done|]. split; [|split; [|split]].
    + rewrite lookup_insert_ne by done. apply lookup_singleton_eq.
    + intros [=].
    + rewrite lookup_message_role, lookup_message_tool_call_id.
      intros [[=]|[? [=]]].
    + intros ? [=].
Qed.

(** C8, as the code has it.  [a + b] returns [a]; afterwards [a] holds its
    former contents followed by the former contents of [b], in the list object
    it held before; [b] is unchanged when its list is another object than the
    list of [a], and doubled like [a] when it is the same one. *)
Theorem add_extends_left_operand
    (h : heap) (a b la lb : nat) (xs ys : list Content) :
  obs_contents h !! a = Some la ->
  obs_contents h !! b = Some lb ->
  lists h !! la = Some xs ->
  lists h !! lb = Some ys ->
  exists h',
    __add__ a b h = Some (a, h')
    /\ contents_of h' a = Some (xs ++ ys)
    /\ obs_contents h' = obs_contents h
    /\ (lb <> la -> contents_of h' b = Some ys)
    /\ (lb = la -> contents_of h' b = Some (ys ++ ys)).
Proof.
  intros Ha Hb Hxs Hys. unfold __add__. rewrite Ha, Hb. simpl.
  rewrite Hxs, Hys. simpl. eexists. split; [done|].
  unfold contents_of; simpl. rewrite (insert_id _ _ _ Ha), Ha, Hb. simpl.
  split; [apply lookup_insert_eq|]. split; [done|]. split.
  - intros Hne. by rewrite lookup_insert_ne.
  - intros ->. rewrite lookup_insert_eq. congruence.
Qed.

End core_properties.

(** Adding observation 1 to observation 0 of the sample heap. *)
Lemma add_extends_left_operand_witness :
  exists h',
    core.__add__ 0 1 samples.two_observations = Some (0, h')
    /\ core.contents_of h' 0 = Some [samples.hello; samples.world]
    /\ core.obs_contents h' = core.obs_contents samples.two_observations
    /\ (11 <> 10 -> core.contents_of h' 1 = Some [samples.world])
    /\ (11 = 10 -> core.contents_of h' 1 = Some [samples.world; samples.world]).
Proof.
  apply (add_extends_left_operand samples.two_observations 0 1 10 11
           [samples.hello] [samples.world]); reflexivity.
Defined.

(** C8 as stated fails when both operands are the same observation: after
    [a + a] the right operand holds its contents twice. *)
Lemma add_aliased_operands :
  exists h',
    core.__add__ 0 0 samples.two_observations = Some (0, h')
    /\ core.contents_of samples.two_observations 0 = Some [samples.hello]
    /\ core.contents_of h' 0 = Some [samples.hello; samples.hello].
Proof. eexists. by repeat split. Qed.

(** A content with the empty string as [tool_call_id]. *)
Lemma to_message_role_witness :
  exists m : pydict,
    @core.to_message samples.lib (core.mkContent (Some EmptyString) None (VStr "hello")) = Ok m
    /\ m !! "content" = Some (VStr "hello")
    /\ (Some EmptyString = Some EmptyString ->
        m !! "role" = Some (VStr "user") /\ m !! "tool_call_id" = None)
    /\ (m !! "role" = Some (VStr "tool") \/ is_Some (m !! "tool_call_id") ->
        exists s, Some EmptyString = Some s /\ s <> EmptyString)
    /\ (forall s, Some EmptyString = Some s -> s <> EmptyString ->
        m !! "role" = Some (VStr "tool") /\ m !! "tool_call_id" = Some (VStr s)).
Proof.
  apply (@to_message_role samples.lib
           (core.mkContent (Some EmptyString) None (VStr "hello")) (VStr "hello")).
  reflexivity.
Defined.

(* ===================================================================== *)
(** * Properties of cube.tool                                             *)
(* ===================================================================== *)

Section tool_properties.

Import core tool.

Context {W : Type} {lib : PyLib}.

Lemma append_inv_head (s a b : string) : s +:+ a = s +:+ b -> a = b.
Proof. induction s as [|c s IH]; simpl; [done|]. intros [= H]. auto. Qed.

(** The two lookup errors of one action never read the same. *)
Lemma lookup_errors_differ (self : Tool W) (action : Action) :
  unknown_action self action <> not_implemented self action.
Proof.
  unfold unknown_action, not_implemented, ValueError. intros [= H].
  apply (append_inv_head EmptyString), append_inv_head in H. discriminate H.
Qed.

(** [Content] accepts a value of the declared type as it is, unless it is a
    string that starts with the image prefix. *)
Lemma Content_init_accepts (i n : option string) (v : pyvalue) :
  data_type v = true ->
  (forall s, v = VStr s -> startswith s _image_prefix = false) ->
  Content_init i n v = Ok (mkContent i n v).
Proof.
  intros Hty Hs. unfold Content_init.
  assert (deserialize_data v = Ok v) as ->.
  { destruct v; try done. unfold deserialize_data. by rewrite (Hs s). }
  simpl. by rewrite Hty.
Qed.

(** Every content that [Content] builds carries the id it was given. *)
Lemma Content_init_id (i n : option string) (v : pyvalue) (c : Content) :
  Content_init i n v = Ok c -> tool_call_id c = i.
Proof.
  unfold Content_init. destruct (deserialize_data v) as [d|]; simpl; [|done].
  destruct (data_type d); [|done]. by intros [= <-].
Qed.

Lemma observe_text (action : Action) (s : string) :
  startswith s _image_prefix = false ->
  observe action (VStr s)
  = Ok (mkObservation [mkContent (action_id action) None (VStr s)]).
Proof.
  intros Hs. unfold observe.
  rewrite Content_init_accepts; [done..|]. by intros ? [= <-].
Qed.

Lemma observe_inv (action : Action) (v : pyvalue) (o : Observation) :
  observe action v = Ok o ->
  exists c, contents o = [c] /\ tool_call_id c = action_id action.
Proof.
  unfold observe. destruct (Content_init _ _ _) as [c|] eqn:Hc; simpl; [|done].
  intros [= <-]. exists c. split; [done|]. by apply Content_init_id in Hc.
Qed.

Lemma get_action_method_unknown (self : Tool W) (action : Action) (w : W) :
  found (action_space self (action_name action)) = false ->
  get_action_method self action w = Raise (unknown_action self action).
Proof. intros Hsp. unfold get_action_method. by rewrite Hsp. Qed.

Lemma get_action_method_not_implemented (self : Tool W) (action : Action) (w : W) :
  found (action_space self (action_name action)) = true ->
  found (self_attr self w (action_name action)) = false ->
  get_action_method self action w = Raise (not_implemented self action).
Proof.
  intros Hsp Himpl. unfold get_action_method. rewrite Hsp. simpl.
  destruct (self_attr self w (action_name action)) as [fn|]; [|done].
  simpl in Himpl. by rewrite Himpl.
Qed.

Lemma get_action_method_found (self : Tool W) (action : Action) (w : W) :
  found (action_space self (action_name action)) = true ->
  found (self_attr self w (action_name action)) = true ->
  exists fn, get_action_method self action w = Ok fn.
Proof.
  intros Hsp Himpl. unfold get_action_method. rewrite Hsp. simpl.
  destruct (self_attr self w (action_name action)) as [fn|]; [|done].
  simpl in Himpl. rewrite Himpl. by exists fn.
Qed.

Lemma get_action_method_raises (self : Tool W) (action : Action) (w : W) (e : pyexc) :
  get_action_method self action w = Raise e ->
  e = unknown_action self action \/ e = not_implemented self action.
Proof.
  unfold get_action_method.
  destruct (negb _); [left; congruence|].
  destruct (self_attr self w (action_name action)) as [fn|]; [|right; congruence].
  destruct (attribute_truthy fn); [done|right; congruence].
Qed.

(** The lookup, read as the code makes it, by the truth value of the two
    [getattr] calls.  A name for which [getattr] on the action space gives
    nothing true raises the error "is not a part of"; a name for which it
    does, and for which [getattr] on the tool object gives nothing true,
    raises the error "is not implemented in".  The two errors differ, and
    [execute_action] hands either to its caller: no observation is built and
    the world is as it was.  A name for which both calls give something true
    raises neither, declared by the protocol or not. *)
Theorem lookup_errors (self : Tool W) (action : Action) (w : W) :
  (found (action_space self (action_name action)) = false ->
     get_action_method self action w = Raise (unknown_action self action)
     /\ execute_action self action w = (Raise (unknown_action self action), w))
  /\ (found (action_space self (action_name action)) = true ->
      found (self_attr self w (action_name action)) = false ->
     get_action_method self action w = Raise (not_implemented self action)
     /\ execute_action self action w = (Raise (not_implemented self action), w))
  /\ unknown_action self action <> not_implemented self action
  /\ (forall e, get_action_method self action w = Raise e ->
        execute_action self action w = (Raise e, w)
        /\ (e = unknown_action self action \/ e = not_implemented self action))
  /\ (found (action_space self (action_name action)) = true ->
      found (self_attr self w (action_name action)) = true ->
      exists fn, get_action_method self action w = Ok fn).
Proof.
  split; [|split; [|split; [|split]]].
  - intros Hsp. unfold execute_action.
    by rewrite (get_action_method_unknown _ _ _ Hsp).
  - intros Hsp Himpl. unfold execute_action.
    by rewrite (get_action_method_not_implemented _ _ _ Hsp Himpl).
  - apply lookup_errors_differ.
  - intros e He. unfold execute_action. rewrite He. split; [done|].
    by apply get_action_method_raises in He.
  - apply get_action_method_found.
Qed.

(** The method raised an exception that [except Exception] catches. *)
Lemma execute_action_caught
    (self : Tool W) (action : Action) (w w' : W) (fn : attribute W) (e : pyexc) :
  get_action_method self action w = Ok fn ->
  call fn (arguments action) w = (Raise e, w') ->
  exc_is_Exception e = true ->
  execute_action self action w
  = (Ok (mkObservation
           [mkContent (action_id action) None (VStr (error_text action e))]), w').
Proof.
  intros Hfn Hcall He. unfold execute_action. rewrite Hfn, Hcall, He.
  by rewrite observe_text.
Qed.

(** The method returned a false value. *)
Lemma execute_action_falsy
    (self : Tool W) (action : Action) (w w' : W) (fn : attribute W) (v : pyvalue) :
  get_action_method self action w = Ok fn ->
  call fn (arguments action) w = (Ok v, w') ->
  truthy v = false ->
  execute_action self action w
  = (Ok (mkObservation [mkContent (action_id action) None (VStr "Success")]), w').
Proof.
  intros Hfn Hcall Hv. unfold execute_action. rewrite Hfn, Hcall, Hv.
  by rewrite observe_text.
Qed.

(** C3, as the code has it.  When the lookup succeeds and the method raises an
    exception that derives from [Exception], [execute_action] returns an
    observation whose only content carries the id of the action and the text
    "Error executing action NAME: ERROR"; when the method returns nothing, or
    any other false value, the data of that content is "Success". *)
Theorem execute_action_contains
    (self : Tool W) (action : Action) (w w' : W) (fn : attribute W) :
  get_action_method self action w = Ok fn ->
  (forall e,
      call fn (arguments action) w = (Raise e, w') ->
      exc_is_Exception e = true ->
      execute_action self action w
      = (Ok (mkObservation
               [mkContent (action_id action) None
                  (VStr ("Error executing action " +:+ action_name action
                         +:+ ": " +:+ exc_str e))]), w'))
  /\ (forall v,
      call fn (arguments action) w = (Ok v, w') ->
      truthy v = false ->
      execute_action self action w
      = (Ok (mkObservation [mkContent (action_id action) None (VStr "Success")]), w'))
  /\ (call fn (arguments action) w = (Ok VNone, w') ->
      execute_action self action w
      = (Ok (mkObservation [mkContent (action_id action) None (VStr "Success")]), w')).
Proof.
  intros Hfn. split; [|split].
  - intros e Hcall He. by apply (execute_action_caught self action w w' fn e).
  - intros v Hcall Hv. by apply (execute_action_falsy self action w w' fn v).
  - intros Hcall. by apply (execute_action_falsy self action w w' fn VNone).
Qed.

(** C9, as the code has it.  When the lookup succeeds, every observation that
    [execute_action] returns holds exactly one content, and that content
    carries the id of the action.  An observation is returned when the method
    raised an exception deriving from [Exception], and when it returned a value
    that, with "Success" in place of a false one, [Content] accepts. *)
Theorem execute_action_tags_id
    (self : Tool W) (action : Action) (w : W) (fn : attribute W) :
  get_action_method self action w = Ok fn ->
  (forall o w',
      execute_action self action w = (Ok o, w') ->
      exists c, contents o = [c] /\ tool_call_id c = action_id action)
  /\ (forall e w',
      call fn (arguments action) w = (Raise e, w') ->
      exc_is_Exception e = true ->
      exists c,
        execute_action self action w = (Ok (mkObservation [c]), w')
        /\ tool_call_id c = action_id action)
  /\ (forall v w',
      call fn (arguments action) w = (Ok v, w') ->
      let action_result := if truthy v then v else VStr "Success" in
      data_type action_result = true ->
      (forall s, action_result = VStr s -> startswith s _image_prefix = false) ->
      execute_action self action w
      = (Ok (mkObservation [mkContent (action_id action) None action_result]), w')).
Proof.
  intros Hfn. split; [|split].
  - intros o w'. unfold execute_action. rewrite Hfn.
    destruct (call fn (arguments action) w) as [[v|e] w1].
    + intros [H _]%pair_equal_spec. by apply observe_inv in H.
    + destruct (exc_is_Exception e); [|done].
      intros [H _]%pair_equal_spec. by apply observe_inv in H.
  - intros e w' Hcall He. eexists.
    split; [by apply (execute_action_caught self action w w' fn e)|done].
  - intros v w' Hcall action_result Hty Hs.
    unfold execute_action. rewrite Hfn, Hcall. fold action_result.
    unfold observe. by rewrite Content_init_accepts.
Qed.

End tool_properties.

(** The two lookup errors on the sample browser: [fly] is no action of the
    space, [scroll] is declared and not implemented. *)
Lemma lookup_errors_witness :
  @tool.execute_action nat samples.lib samples.browser samples.fly 0
    = (Raise (ValueError "Action fly is not a part of BrowserSpace."), 0)
  /\ @tool.execute_action nat samples.lib samples.browser samples.scroll 0
    = (Raise (ValueError "Action scroll is not implemented in Browser."), 0).
Proof.
  split.
  - destruct (@lookup_errors nat samples.lib samples.browser samples.fly 0)
      as [H _]. apply H. reflexivity.
  - destruct (@lookup_errors nat samples.lib samples.browser samples.scroll 0)
      as (_ & H & _). apply H; reflexivity.
Defined.

(** [crash] raises a ValueError inside the method. *)
Lemma execute_action_contains_witness :
  @tool.execute_action nat samples.lib samples.browser samples.crash 0
  = (Ok (core.mkObservation
           [core.mkContent (Some "call_3") None
              (VStr "Error executing action crash: boom")]), 0).
Proof.
  destruct (@execute_action_contains nat samples.lib samples.browser samples.crash 0 0
              (tool.Method (fun _ w => (Raise (ValueError "boom"), w))) eq_refl)
    as [H _].
  apply (H (ValueError "boom")); reflexivity.
Defined.

(** C3 as stated fails on an exception outside [Exception]: [halt] is found,
    raises KeyboardInterrupt, and [execute_action] raises it in turn. *)
Lemma execute_action_propagates_interrupt :
  is_Ok (tool.get_action_method samples.browser samples.halt 0) = true
  /\ @tool.execute_action nat samples.lib samples.browser samples.halt 0
     = (Raise KeyboardInterrupt, 0).
Proof. split; reflexivity. Qed.

(** [click] returns nothing. *)
Lemma execute_action_tags_id_witness :
  @tool.execute_action nat samples.lib samples.browser samples.click 0
  = (Ok (core.mkObservation [core.mkContent (Some "call_1") None (VStr "Success")]), 1).
Proof.
  destruct (@execute_action_tags_id nat samples.lib samples.browser samples.click 0
              (tool.Method (fun _ w => (Ok VNone, S w))) eq_refl)
    as (_ & _ & H).
  apply (H VNone 1); [reflexivity|reflexivity|].
  intros s [= <-]. reflexivity.
Defined.

(** C9 as stated fails on a method that returns an int: [count] is found and
    returns 42, which [Content] rejects, so no observation is returned. *)
Lemma execute_action_rejects_int :
  is_Ok (tool.get_action_method samples.browser samples.count 0) = true
  /\ @tool.execute_action nat samples.lib samples.browser samples.count 0
     = (Raise (ValidationError "1 validation error for Content: data"), 0).
Proof. split; reflexivity. Qed.

(** C7, where the code departs from it.  The lookup asks [getattr] for the
    name on the protocol class and on the tool object, and every class and
    every object has [__init__].  So for the name [__init__], which the
    protocol [BrowserSpace] does not declare, the lookup raises no error:
    [execute_action] calls [__init__] of the browser and returns the
    observation "Success". *)
Theorem undeclared_name_is_called :
  bool_decide ("__init__" ∈ samples_more.browser_members) = false
  /\ is_Ok (tool.get_action_method samples_more.python_browser samples_more.init 0)
     = true
  /\ @tool.execute_action nat samples.lib samples_more.python_browser samples_more.init 0
     = (Ok (core.mkObservation
              [core.mkContent (Some "call_8") None (VStr "Success")]), 0).
Proof. split; [|split]; reflexivity. Qed.

(* ===================================================================== *)
(** * Properties of cube.environment                                      *)
(* ===================================================================== *)

Section environment_properties.

Import core environment.

Context {W : Type} {lib : PyLib}.

Variable self : Environment W.

Local Abbreviation step_loop := (step_loop self).
Local Abbreviation step_finish := (step_finish self).
Local Abbreviation step := (step self).


Lemma dispatched_app (tr1 tr2 : list event) :
  dispatched (tr1 ++ tr2) = dispatched tr1 ++ dispatched tr2.
Proof. apply omap_app. Qed.

Lemma validations_app (tr1 tr2 : list event) :
  validations (tr1 ++ tr2) = validations tr1 ++ validations tr2.
Proof. apply omap_app. Qed.

(** Asking the task whether it accepts the stop dispatches and validates
    nothing. *)
Lemma stop_requested_trace (action : Action) (s s' : state W) (r : res bool) :
  stop_requested self action s = (r, s') ->
  dispatched s'.2 = dispatched s.2 /\ validations s'.2 = validations s.2.
Proof.
  unfold stop_requested, invoke, ret.
  destruct (String.eqb _ _).
  - destruct (accept_agent_stop (task self) s.1) as [r' w'].
    intros [= <- <-]. simpl.
    by rewrite dispatched_app, validations_app, !app_nil_r.
  - by intros [= <- <-].
Qed.

(** One turn of the loop, with the calls written out. *)
Lemma step_loop_cons
    (a : Action) (rest : list Action) (acc : list Observation) (s : state W) :
  step_loop (a :: rest) acc s
  = match stop_requested self a s with
    | (Ok true, s1) => (Ok (acc ++ [stop_observation], true), s1)
    | (Ok false, s1) =>
        match execute_action (tool self) a s1.1 with
        | (Ok o, w') => step_loop rest (acc ++ [o]) (w', s1.2 ++ [EExecute a (Ok o)])
        | (Raise e, w') => (Raise e, (w', s1.2 ++ [EExecute a (Raise e)]))
        end
    | (Raise e, s1) => (Raise e, s1)
    end.
Proof.
  simpl. unfold bind at 1.
  destruct (stop_requested self a s) as [[[]|e] s1]; [done| |done].
  unfold bind, invoke.
  by destruct (execute_action (tool self) a s1.1) as [[o|e] w'].
Qed.

(** The loop validates nothing. *)
Lemma step_loop_validations
    (actions : list Action) (acc : list Observation) (s s' : state W)
    (r : res (list Observation * bool)) :
  step_loop actions acc s = (r, s') -> validations s'.2 = validations s.2.
Proof.
  revert acc s. induction actions as [|a rest IH]; intros acc s.
  - by intros [= <- <-].
  - rewrite step_loop_cons.
    destruct (stop_requested self a s) as [[[]|e] s1] eqn:Hstop;
      apply stop_requested_trace in Hstop as [_ Hv].
    + by intros [= <- <-].
    + destruct (execute_action (tool self) a s1.1) as [[o|e] w'].
      * intros H%IH. rewrite H. simpl.
        by rewrite validations_app, app_nil_r.
      * intros [= <- <-]. simpl. by rewrite validations_app, app_nil_r.
    + by intros [= <- <-].
Qed.

(** When the loop runs through [pre] without a stop, the loop over a longer
    list goes on from there. *)
Lemma step_loop_app
    (pre rest : list Action) (acc res : list Observation) (s s1 : state W) :
  step_loop pre acc s = (Ok (res, false), s1) ->
  step_loop (pre ++ rest) acc s = step_loop rest res s1.
Proof.
  revert acc s. induction pre as [|a pre IH]; intros acc s.
  - by intros [= <- <-].
  - rewrite <- app_comm_cons, !step_loop_cons.
    destruct (stop_requested self a s) as [[[]|e] s']; [done| |done].
    destruct (execute_action (tool self) a s'.1) as [[o|e] w']; [|done].
    apply IH.
Qed.

(** When the loop runs through [pre] without a stop, every action of [pre]
    was handed to the tool, in order. *)
Lemma step_loop_dispatched
    (pre : list Action) (acc res : list Observation) (s s1 : state W) :
  step_loop pre acc s = (Ok (res, false), s1) ->
  dispatched s1.2 = dispatched s.2 ++ pre.
Proof.
  revert acc s. induction pre as [|a pre IH]; intros acc s.
  - intros [= <- <-]. by rewrite app_nil_r.
  - rewrite step_loop_cons.
    destruct (stop_requested self a s) as [[[]|e] s'] eqn:Hstop;
      apply stop_requested_trace in Hstop as [Hd _]; [done| |done].
    destruct (execute_action (tool self) a s'.1) as [[o|e] w']; [|done].
    intros H%IH. rewrite H. simpl. rewrite dispatched_app, Hd. simpl.
    by rewrite <- app_assoc.
Qed.

(** What follows the loop dispatches nothing. *)
Lemma step_finish_dispatched
    (results : list Observation) (d : bool) (s s' : state W)
    (r : res EnvironmentOutput) :
  step_finish results d s = (r, s') -> dispatched s'.2 = dispatched s.2.
Proof.
  unfold environment.step_finish, bind, invoke, ret.
  destruct d.
  - rewrite orb_true_r.
    destruct (validate_task _ _ _) as [[ri|e] w1]; simpl.
    + destruct (obs_postprocess _ _ _) as [[o|e] w2]; intros [= <- <-]; simpl;
        by rewrite !dispatched_app, !app_nil_r.
    + intros [= <- <-]; simpl. by rewrite !dispatched_app, !app_nil_r.
  - destruct (finished _ _) as [[d|e] w0]; simpl.
    + destruct (validate_per_step (task self) || d).
      * destruct (validate_task _ _ _) as [[ri|e] w1]; simpl.
        -- destruct (obs_postprocess _ _ _) as [[o|e] w2]; intros [= <- <-]; simpl;
             by rewrite !dispatched_app, !app_nil_r.
        -- intros [= <- <-]; simpl. by rewrite !dispatched_app, !app_nil_r.
      * destruct (obs_postprocess _ _ _) as [[o|e] w2]; intros [= <- <-]; simpl;
          by rewrite !dispatched_app, !app_nil_r.
    + intros [= <- <-]; simpl. by rewrite !dispatched_app, !app_nil_r.
Qed.

Ltac norm_trace :=
  simpl; rewrite ?validations_app, ?dispatched_app; simpl; rewrite ?app_nil_r.

(** After a stop the flag [done] is set in what [step] returns. *)
Lemma step_finish_done
    (results : list Observation) (s s' : state W) (out : EnvironmentOutput) :
  step_finish results true s = (Ok out, s') -> done out = true.
Proof.
  unfold environment.step_finish, bind, invoke, ret. rewrite orb_true_r.
  destruct (validate_task _ _ _) as [[ri|e] w1]; simpl; [|done].
  destruct (obs_postprocess _ _ _) as [[o|e] w2]; [|done].
  by intros [= <- <-].
Qed.

(** The validation gate of [step_finish]: the calls of [validate_task] it
    adds, and how they bear on what it returns. *)
Lemma step_finish_validations
    (results : list Observation) (d : bool) (s s' : state W)
    (r : res EnvironmentOutput) :
  step_finish results d s = (r, s') ->
  exists vs,
    validations s'.2 = validations s.2 ++ vs
    /\ length vs <= 1
    /\ (forall out, r = Ok out ->
          (validate_per_step (task self) = false -> done out = false ->
             reward out = 0%float /\ info out = ∅ /\ vs = [])
          /\ (validate_per_step (task self) = true \/ done out = true ->
             vs = [(merge results, Ok (reward out, info out))])).
Proof.
  unfold environment.step_finish, bind, invoke, ret.
  destruct d.
  - rewrite orb_true_r.
    destruct (validate_task _ _ _) as [[[rw inf]|e] w1]; simpl.
    + exists [(merge results, Ok (rw, inf))].
      destruct (obs_postprocess _ _ _) as [[o|e] w2]; injection H as <- <-;
        norm_trace; (split; [done|]); (split; [done|]); [|done].
      intros out [= <-]. by split.
    + intros [= <- <-]. exists [(merge results, Raise e)]. by norm_trace.
  - destruct (finished _ _) as [[d|e] w0]; simpl.
    + destruct (validate_per_step (task self) || d) eqn:Hgate.
      * destruct (validate_task _ _ _) as [[[rw inf]|e] w1]; simpl.
        -- exists [(merge results, Ok (rw, inf))].
           destruct (obs_postprocess _ _ _) as [[o|e] w2]; injection H as <- <-;
             norm_trace; (split; [done|]); (split; [done|]); [|done].
           intros out [= <-]. split; [|done].
           simpl. intros Hvps Hd. rewrite Hvps, Hd in Hgate. done.
        -- intros [= <- <-]. exists [(merge results, Raise e)]. by norm_trace.
      * apply orb_false_iff in Hgate as [Hvps Hd]. exists [].
        destruct (obs_postprocess _ _ _) as [[o|e] w2]; injection H as <- <-;
          norm_trace; (split; [done|]); (split; [lia|]); [|done].
        intros out [= <-]. split; [done|].
        simpl. rewrite Hvps, Hd. by intros [|].
    + intros [= <- <-]. exists []. norm_trace. by split; [|split; [lia|]].
Qed.

(** C4.  In every call of [step], [validate_task] is called at most once.  When
    [step] returns and neither [validate_per_step] nor [done] holds, the
    reward is 0.0, the info is empty and [validate_task] was not called; when
    one of them holds, [validate_task] was called exactly once, on the merged
    observation of the loop, and what it returned is the reward and the info
    of the output.

    [step] does return these outputs.  Let the loop end normally.  After an
    accepted stop, and likewise when [finished] returns and one of
    [validate_per_step] and its result is true, [step] returns the reward and
    the info of the one call of [validate_task] as soon as that call and the
    post-processing return; when [finished] returns false and
    [validate_per_step] is false, [step] returns reward 0.0 and empty info
    without any call of [validate_task] as soon as the post-processing
    returns. *)
Theorem validation_gating (action : step_input) (w : W) :
  (forall r w' tr,
      step action (w, []) = (r, (w', tr)) ->
      length (validations tr) <= 1
      /\ (forall out, r = Ok out ->
            (validate_per_step (task self) = false -> done out = false ->
               reward out = 0%float /\ info out = ∅ /\ validations tr = [])
            /\ (validate_per_step (task self) = true \/ done out = true ->
               exists o, validations tr = [(o, Ok (reward out, info out))])))
  /\ (forall results d w1 tr1,
      step_loop (normalize action) [] (w, []) = (Ok (results, d), (w1, tr1)) ->
      (d = true ->
       forall rw inf o w2 w3,
         validate_task (task self) (merge results) w1 = (Ok (rw, inf), w2) ->
         obs_postprocess (task self) (merge results) w2 = (Ok o, w3) ->
         exists tr,
           step action (w, []) = (Ok (mkEnvironmentOutput o rw true inf), (w3, tr))
           /\ validations tr = [(merge results, Ok (rw, inf))])
      /\ (d = false ->
          forall dn w2,
            finished (task self) w1 = (Ok dn, w2) ->
            (validate_per_step (task self) || dn = true ->
             forall rw inf o w3 w4,
               validate_task (task self) (merge results) w2 = (Ok (rw, inf), w3) ->
               obs_postprocess (task self) (merge results) w3 = (Ok o, w4) ->
               exists tr,
                 step action (w, []) = (Ok (mkEnvironmentOutput o rw dn inf), (w4, tr))
                 /\ validations tr = [(merge results, Ok (rw, inf))])
            /\ (validate_per_step (task self) || dn = false ->
                forall o w3,
                  obs_postprocess (task self) (merge results) w2 = (Ok o, w3) ->
                  exists tr,
                    step action (w, [])
                    = (Ok (mkEnvironmentOutput o 0%float dn ∅), (w3, tr))
                    /\ dn = false /\ validations tr = []))).
Proof.
  split.
  - intros r w' tr. unfold environment.step, bind.
    destruct (step_loop (normalize action) [] (w, [])) as [[[results d]|e] s1] eqn:Hloop;
      apply step_loop_validations in Hloop; simpl in Hloop.
    + intros (vs & Htr & Hlen & Hout)%step_finish_validations.
      simpl in Htr. rewrite Hloop in Htr. simpl in Htr. subst vs.
      split; [done|]. intros out Hr. destruct (Hout out Hr) as [H0 H1].
      split; [done|]. intros Hgate. eexists. by apply H1.
    + intros [= <- ->]. simpl in Hloop. rewrite Hloop. simpl. split; [lia|done].
  - intros results d w1 tr1 Hloop.
    assert (validations tr1 = []) as Hv.
    { by apply step_loop_validations in Hloop. }
    split.
    + intros -> rw inf o w2 w3 Hval Hpost. eexists.
      unfold environment.step, bind. rewrite Hloop. simpl.
      unfold environment.step_finish, bind, invoke, ret. rewrite orb_true_r. simpl.
      rewrite Hval. simpl. rewrite Hpost. simpl. split; [done|].
      rewrite !validations_app, Hv. done.
    + intros -> dn w2 Hfin. split.
      * intros Hgate rw inf o w3 w4 Hval Hpost. eexists.
        unfold environment.step, bind. rewrite Hloop. simpl.
        unfold environment.step_finish, bind, invoke, ret. simpl.
        rewrite Hfin. simpl. rewrite Hgate. simpl. rewrite Hval. simpl.
        rewrite Hpost. simpl.
        split; [done|]. rewrite !validations_app, Hv. done.
      * intros Hgate o w3 Hpost. eexists.
        unfold environment.step, bind. rewrite Hloop. simpl.
        unfold environment.step_finish, bind, invoke, ret. simpl.
        rewrite Hfin. simpl. rewrite Hgate. simpl. rewrite Hpost. simpl.
        apply orb_false_iff in Hgate as [_ ->].
        split; [done|]. split; [done|]. rewrite !validations_app, Hv. done.
Qed.


(** An action with another name is handed to the tool without asking the task. *)
Lemma stop_requested_other (action : Action) (s : state W) :
  action_name action <> name STOP_ACTION ->
  stop_requested self action s = (Ok false, s).
Proof.
  intros Hname. unfold stop_requested.
  by destruct (String.eqb_spec (action_name action) (name STOP_ACTION)).
Qed.

(** The loop over one action that is no stop action and that the tool
    executes: the hypothesis of the next theorem for the list [[A; STOP; B]]. *)
Lemma step_loop_single (a : Action) (o : Observation) (w w1 : W) :
  action_name a <> name STOP_ACTION ->
  execute_action (tool self) a w = (Ok o, w1) ->
  step_loop [a] [] (w, []) = (Ok ([o], false), (w1, [EExecute a (Ok o)])).
Proof.
  intros Hname Hexec.
  rewrite step_loop_cons, (stop_requested_other _ _ Hname). simpl.
  by rewrite Hexec.
Qed.

(** C2.  Let the actions be [pre], then an action named like the stop action,
    then [post]; let the loop run through [pre] without a stop, and let the
    task then accept the stop.  The loop ends with the observations of [pre]
    followed by the observation "Task finished by the agent." and with [done]
    set.  However [step] ends, the actions handed to the tool are exactly those
    of [pre], in order, so none of [post] is dispatched, and an output that is
    returned has [done] set.  [step] returns that output whenever validation
    and post-processing of the merged observation return. *)
Theorem stop_short_circuit
    (pre post : list Action) (stop : Action) (results : list Observation)
    (w w1 w2 : W) (tr1 : list event) :
  action_name stop = name STOP_ACTION ->
  step_loop pre [] (w, []) = (Ok (results, false), (w1, tr1)) ->
  accept_agent_stop (task self) w1 = (Ok true, w2) ->
  step_loop (pre ++ stop :: post) [] (w, [])
  = (Ok (results ++ [stop_observation], true), (w2, tr1 ++ [EAcceptStop (Ok true)]))
  /\ (forall r s3,
        step (Many (pre ++ stop :: post)) (w, []) = (r, s3) ->
        dispatched s3.2 = pre /\ (forall out, r = Ok out -> done out = true))
  /\ (forall rw inf o w3 w4,
        validate_task (task self) (merge (results ++ [stop_observation])) w2
        = (Ok (rw, inf), w3) ->
        obs_postprocess (task self) (merge (results ++ [stop_observation])) w3
        = (Ok o, w4) ->
        exists tr,
          step (Many (pre ++ stop :: post)) (w, [])
          = (Ok (mkEnvironmentOutput o rw true inf), (w4, tr))
          /\ dispatched tr = pre).
Proof.
  intros Hname Hpre Haccept.
  assert (step_loop (pre ++ stop :: post) [] (w, [])
          = (Ok (results ++ [stop_observation], true),
             (w2, tr1 ++ [EAcceptStop (Ok true)]))) as Hloop.
  { rewrite (step_loop_app _ _ _ _ _ _ Hpre), step_loop_cons.
    unfold stop_requested, invoke. rewrite Hname, String.eqb_refl. simpl.
    by rewrite Haccept. }
  assert (dispatched (tr1 ++ [EAcceptStop (Ok true)]) = pre) as Hdisp.
  { rewrite dispatched_app, app_nil_r.
    apply (step_loop_dispatched _ _ _ _ _ Hpre). }
  split; [done|]. split.
  - intros r s3. unfold environment.step, bind. simpl. rewrite Hloop. simpl.
    intros Hfin. split.
    + by rewrite (step_finish_dispatched _ _ _ _ _ Hfin).
    + intros out ->. by apply step_finish_done in Hfin.
  - intros rw inf o w3 w4 Hval Hpost. eexists.
    unfold environment.step, bind. simpl. rewrite Hloop. simpl.
    unfold environment.step_finish, bind, invoke, ret. rewrite orb_true_r. simpl.
    rewrite Hval. simpl. rewrite Hpost. simpl. split; [done|].
    rewrite 2!dispatched_app, Hdisp. simpl. by rewrite !app_nil_r.
Qed.


End environment_properties.

(** [click], then the stop action, then [crash], on a task that accepts the
    stop: [click] is dispatched, [crash] is not. *)
Lemma stop_short_circuit_witness :
  exists tr,
    @environment.step nat samples.lib samples.accepting_env
      (environment.Many [samples.click; samples.final_step; samples.crash]) (0, [])
    = (Ok (core.mkEnvironmentOutput
             (core.mkObservation
                [core.mkContent (Some "call_1") None (VStr "Success");
                 core.mkContent None None (VStr "Task finished by the agent.")])
             1%float true {[ "solved" := VBool true ]}),
       (1, tr))
    /\ environment.dispatched tr = [samples.click].
Proof.
  destruct (@stop_short_circuit nat samples.lib samples.accepting_env
              [samples.click] [samples.crash] samples.final_step
              [core.mkObservation [core.mkContent (Some "call_1") None (VStr "Success")]]
              0 1 1
              [environment.EExecute samples.click
                 (Ok (core.mkObservation
                        [core.mkContent (Some "call_1") None (VStr "Success")]))]
              eq_refl eq_refl eq_refl) as (_ & _ & H).
  apply (H 1%float {[ "solved" := VBool true ]} _ 1 1); reflexivity.
Defined.

(** Three returned outputs.  One [click] on the sample task: no stop, the task
    not finished, no validation per step, so reward 0.0, empty info and no
    call of [validate_task].  [click] and the stop action: [done], and the
    reward and info of the one call of [validate_task].  One [click] on a task
    that validates every step: not [done], and again the reward and info of
    the one call. *)
Lemma validation_gating_witness :
  (exists tr,
      @environment.step nat samples.lib samples.accepting_env
        (environment.One samples.click) (0, [])
      = (Ok (core.mkEnvironmentOutput
               (core.mkObservation
                  [core.mkContent (Some "call_1") None (VStr "Success")])
               0%float false ∅), (1, tr))
      /\ false = false /\ environment.validations tr = [])
  /\ (exists tr,
      @environment.step nat samples.lib samples.accepting_env
        (environment.Many [samples.click; samples.final_step]) (0, [])
      = (Ok (core.mkEnvironmentOutput
               (core.mkObservation
                  [core.mkContent (Some "call_1") None (VStr "Success");
                   core.mkContent None None (VStr "Task finished by the agent.")])
               1%float true {[ "solved" := VBool true ]}), (1, tr))
      /\ environment.validations tr
         = [(core.mkObservation
               [core.mkContent (Some "call_1") None (VStr "Success");
                core.mkContent None None (VStr "Task finished by the agent.")],
             Ok samples.solved)])
  /\ (exists tr,
      @environment.step nat samples.lib samples_more.eager_env
        (environment.One samples.click) (0, [])
      = (Ok (core.mkEnvironmentOutput
               (core.mkObservation
                  [core.mkContent (Some "call_1") None (VStr "Success")])
               1%float false {[ "solved" := VBool true ]}), (1, tr))
      /\ environment.validations tr
         = [(core.mkObservation
               [core.mkContent (Some "call_1") None (VStr "Success")],
             Ok samples.solved)]).
Proof.
  split; [|split].
  - destruct (@validation_gating nat samples.lib samples.accepting_env
                (environment.One samples.click) 0) as [_ H].
    destruct (H [core.mkObservation
                   [core.mkContent (Some "call_1") None (VStr "Success")]]
                false 1
                [environment.EExecute samples.click
                   (Ok (core.mkObservation
                          [core.mkContent (Some "call_1") None (VStr "Success")]))]
                eq_refl) as [_ H0].
    destruct (H0 eq_refl false 1 eq_refl) as [_ H1].
    apply (H1 eq_refl _ 1). reflexivity.
  - destruct (@validation_gating nat samples.lib samples.accepting_env
                (environment.Many [samples.click; samples.final_step]) 0) as [_ H].
    destruct (H [core.mkObservation
                   [core.mkContent (Some "call_1") None (VStr "Success")];
                 environment.stop_observation]
                true 1
                [environment.EExecute samples.click
                   (Ok (core.mkObservation
                          [core.mkContent (Some "call_1") None (VStr "Success")]));
                 environment.EAcceptStop (Ok true)]
                eq_refl) as [H0 _].
    apply (H0 eq_refl 1%float {[ "solved" := VBool true ]} _ 1 1); reflexivity.
  - destruct (@validation_gating nat samples.lib samples_more.eager_env
                (environment.One samples.click) 0) as [_ H].
    destruct (H [core.mkObservation
                   [core.mkContent (Some "call_1") None (VStr "Success")]]
                false 1
                [environment.EExecute samples.click
                   (Ok (core.mkObservation
                          [core.mkContent (Some "call_1") None (VStr "Success")]))]
                eq_refl) as [_ H0].
    destruct (H0 eq_refl false 1 eq_refl) as [H1 _].
    apply (H1 eq_refl 1%float {[ "solved" := VBool true ]} _ 1 1); reflexivity.
Defined.


(* ===================================================================== *)
(** * Further properties: trajectories                                    *)
(* ===================================================================== *)

Section trajectory_properties.

Import core trajectory.

Lemma scan_agents (pre : list item) (rest : list item) :
  Forall is_agent pre -> scan (pre ++ rest) = scan rest.
Proof.
  induction 1 as [|x pre Hx _ IH]; [done|]. by destruct x.
Qed.

Lemma scan_found (l : list item) (e : EnvironmentOutput) :
  scan l = Ok e ->
  exists pre post, l = pre ++ EnvItem e :: post /\ Forall is_agent pre.
Proof.
  induction l as [|[e'|a] l IH]; simpl; [done| |].
  - intros [= ->]. by exists [], l.
  - intros (pre & post & -> & Hpre)%IH.
    exists (AgentItem a :: pre), post. split; [done|]. by constructor.
Qed.

Lemma scan_none (l : list item) :
  scan l = Raise (ValueError "No EnvironmentOutput found in the trajectory.")
  <-> Forall is_agent l.
Proof.
  induction l as [|[e'|a] l IH]; simpl.
  - done.
  - split; [done|]. by intros [[] _]%Forall_cons.
  - rewrite IH. split; [by constructor|]. by intros [_ ?]%Forall_cons.
Qed.

(** [last_env_step] returns [e] exactly when [e] is an environment output of
    the trajectory that only agent outputs follow; it raises its ValueError
    exactly when the trajectory holds no environment output at all. *)
Theorem last_env_step_spec (t : Trajectory) :
  (forall e,
      last_env_step t = Ok e
      <-> exists pre post,
          steps t = pre ++ EnvItem e :: post /\ Forall is_agent post)
  /\ (last_env_step t
      = Raise (ValueError "No EnvironmentOutput found in the trajectory.")
      <-> Forall is_agent (steps t)).
Proof.
  unfold last_env_step. split.
  - intros e. split.
    + intros (pre & post & Hrev & Hpre)%scan_found.
      exists (reverse post), (reverse pre). split.
      * rewrite <- (reverse_involutive (steps t)), Hrev.
        by rewrite reverse_app, reverse_cons, <- app_assoc.
      * by apply Forall_reverse.
    + intros (pre & post & -> & Hpost).
      rewrite reverse_app, reverse_cons, <- app_assoc.
      by rewrite scan_agents by by apply Forall_reverse.
  - rewrite scan_none. apply Forall_reverse.
Qed.

(** Appending an environment output makes it the last environment step;
    appending an agent output leaves the last environment step as it was;
    either way the steps recorded before stay in place and the metadata is
    kept. *)
Theorem append_last_env_step (t : Trajectory) :
  (forall e, last_env_step (append t (EnvItem e)) = Ok e)
  /\ (forall a, last_env_step (append t (AgentItem a)) = last_env_step t)
  /\ (forall x,
        steps (append t x) = steps t ++ [x]
        /\ (forall i, i < length (steps t) -> steps (append t x) !! i = steps t !! i)
        /\ metadata (append t x) = metadata t).
Proof.
  unfold last_env_step, append. simpl. split; [|split].
  - intros e. by rewrite reverse_snoc.
  - intros a. by rewrite reverse_snoc.
  - intros x. split; [done|]. split; [|done].
    intros i Hi. by rewrite lookup_app_l.
Qed.

End trajectory_properties.

(** The last environment step of the sample run, found in front of an agent
    output. *)
Lemma last_env_step_spec_witness :
  trajectory.last_env_step samples_more.run = Ok samples_more.greeting.
Proof.
  destruct (last_env_step_spec samples_more.run) as [H _].
  apply H. exists [], [trajectory.AgentItem samples_more.one_click].
  split; [reflexivity|]. by repeat constructor.
Defined.

(* ===================================================================== *)
(** * Further properties: the type tag                                    *)
(* ===================================================================== *)

Section tag_properties.

Import base.

Variable import_module : string -> res (gmap string pyclass).
Variable handler_serialize : pyclass -> pydict -> res pydict.
Variable handler_validate : pyclass -> pyvalue -> res instance.

Local Abbreviation model_validate := (model_validate import_module handler_validate).
Local Abbreviation _serialize_with_type := (_serialize_with_type handler_serialize).

(** When the mapping holds the reserved key, the class it is validated
    against plays no part: the outcome is the same for any two declared
    classes. *)
Theorem tag_overrides_declared_class
    (fuel : nat) (d : pydict) (tag : pyvalue) (cls1 cls2 : pyclass) :
  d !! "_type" = Some tag ->
  model_validate fuel cls1 (VDict d) = model_validate fuel cls2 (VDict d).
Proof.
  intros Htag. destruct fuel as [|fuel]; [done|]. simpl. by rewrite Htag.
Qed.

(** A tag that cannot be resolved raises, and the handler of the declared
    class is not tried in its place: a tag without a dot raises ValueError, a
    tag that is no string AttributeError, a module that cannot be imported
    the error of the import, and a module without the class AttributeError. *)
Theorem unresolvable_tag_raises (fuel : nat) (cls : pyclass) (d : pydict) :
  (forall s,
      d !! "_type" = Some (VStr s) -> has_dot s = false ->
      model_validate (S fuel) cls (VDict d)
      = Raise (ValueError "not enough values to unpack (expected 2, got 1)"))
  /\ (forall tag,
      d !! "_type" = Some tag -> (forall s, tag <> VStr s) ->
      model_validate (S fuel) cls (VDict d)
      = Raise (AttributeError "object has no attribute rsplit"))
  /\ (forall m n e,
      d !! "_type" = Some (VStr (m +:+ "." +:+ n)) -> has_dot n = false ->
      import_module m = Raise e ->
      model_validate (S fuel) cls (VDict d) = Raise e)
  /\ (forall m n md,
      d !! "_type" = Some (VStr (m +:+ "." +:+ n)) -> has_dot n = false ->
      import_module m = Ok md -> md !! n = None ->
      model_validate (S fuel) cls (VDict d)
      = Raise (AttributeError ("module " +:+ m +:+ " has no attribute " +:+ n))).
Proof.
  split; [|split; [|split]].
  - intros s Htag Hdot. simpl. by rewrite Htag, (rsplit_dot_no_dot _ Hdot).
  - intros tag Htag Hstr. simpl. rewrite Htag.
    destruct tag; try done. by destruct (Hstr s).
  - intros m n e Htag Hdot Himp. simpl.
    by rewrite Htag, (rsplit_dot_app _ _ Hdot), Himp.
  - intros m n md Htag Hdot Himp Hattr. simpl.
    rewrite Htag, (rsplit_dot_app _ _ Hdot), Himp. simpl. by rewrite Hattr.
Qed.

(** Serializing adds the tag and changes nothing else: the keys are those of
    the mapping of the field serializer together with [_type], every other
    key keeps its value, and a value the field serializer wrote under [_type]
    is replaced by the tag.  An error of the field serializer is raised as it
    is. *)
Theorem serialize_adds_only_the_tag (V : instance) :
  (forall data,
      handler_serialize V.1 V.2 = Ok data ->
      exists out,
        _serialize_with_type V = Ok out
        /\ dom out = {["_type"]} ∪ dom data
        /\ out !! "_type" = Some (VStr (type_path V.1))
        /\ (forall k, k <> "_type" -> out !! k = data !! k))
  /\ (forall e,
      handler_serialize V.1 V.2 = Raise e -> _serialize_with_type V = Raise e).
Proof.
  unfold base._serialize_with_type. split.
  - intros data ->. simpl. eexists. split; [done|]. split; [|split].
    + apply dom_insert_L.
    + apply lookup_insert_eq.
    + intros k Hk. by rewrite lookup_insert_ne.
  - by intros e ->.
Qed.

End tag_properties.

(** A mapping tagged [agents.ReactAgentConfig], validated against the base
    class and against a class of another module. *)
Lemma tag_overrides_declared_class_witness :
  base.model_validate samples.import_agents samples.plain_validate 2
    samples.AgentConfig
    (VDict {[ "_type" := VStr "agents.ReactAgentConfig"; "max_steps" := VInt 10 ]})
  = base.model_validate samples.import_agents samples.plain_validate 2
      (PyClass "tools" "BrowserConfig" 7)
      (VDict {[ "_type" := VStr "agents.ReactAgentConfig"; "max_steps" := VInt 10 ]}).
Proof.
  apply (tag_overrides_declared_class samples.import_agents samples.plain_validate 2
           _ (VStr "agents.ReactAgentConfig")).
  reflexivity.
Defined.

(** A tag without a dot, and a tag that names a module that does not exist. *)
Lemma unresolvable_tag_raises_witness :
  base.model_validate samples.import_agents samples.plain_validate 1
    samples.AgentConfig (VDict {[ "_type" := VStr "AgentConfig" ]})
  = Raise (ValueError "not enough values to unpack (expected 2, got 1)")
  /\ base.model_validate samples.import_agents samples.plain_validate 1
       samples.AgentConfig (VDict {[ "_type" := VStr "robots.AgentConfig" ]})
     = Raise (ModuleNotFoundError "No module named robots").
Proof.
  split.
  - destruct (unresolvable_tag_raises samples.import_agents samples.plain_validate 0
                samples.AgentConfig {[ "_type" := VStr "AgentConfig" ]}) as [H _].
    apply (H "AgentConfig"); reflexivity.
  - destruct (unresolvable_tag_raises samples.import_agents samples.plain_validate 0
                samples.AgentConfig {[ "_type" := VStr "robots.AgentConfig" ]})
      as (_ & _ & H & _).
    apply (H "robots" "AgentConfig"); reflexivity.
Defined.

(** Serializing the sample instance of [ReactAgentConfig]. *)
Lemma serialize_adds_only_the_tag_witness :
  exists out,
    base._serialize_with_type samples.plain_serialize samples.react_config = Ok out
    /\ dom out = {["_type"]} ∪ dom ({[ "max_steps" := VInt 10 ]} : pydict)
    /\ out !! "_type" = Some (VStr "agents.ReactAgentConfig")
    /\ (forall k, k <> "_type" ->
        out !! k = ({[ "max_steps" := VInt 10 ]} : pydict) !! k).
Proof.
  destruct (serialize_adds_only_the_tag samples.plain_serialize samples.react_config)
    as [H _].
  apply H. reflexivity.
Defined.

(* ===================================================================== *)
(** * Further properties: contents and messages                           *)
(* ===================================================================== *)

Section content_properties.

Import core.

Context {lib : PyLib}.

(** A string with the image prefix is never read back as a string. *)
Lemma deserialize_data_prefixed (s : string) (v : pyvalue) :
  startswith s _image_prefix = true ->
  deserialize_data (VStr s) = Ok v ->
  exists im, v = VImage im.
Proof.
  intros Hp. unfold deserialize_data. rewrite Hp.
  destruct (b64decode _) as [b|]; simpl; [|done].
  destruct (Image_open b) as [im|]; simpl; [|done].
  intros [= <-]. by exists im.
Qed.

(** Text written by the field serializer and read back by the field validator
    is the same text exactly when it does not start with the image prefix:
    text that starts with it comes back as an image or not at all. *)
Theorem text_roundtrip_iff (s : string) :
  (x ← serialize_data (VStr s); deserialize_data (VStr x)) = Ok (VStr s)
  <-> startswith s _image_prefix = false.
Proof.
  change (deserialize_data (VStr s) = Ok (VStr s)
          <-> startswith s _image_prefix = false).
  split.
  - intros Hrt. destruct (startswith s _image_prefix) eqn:Hp; [|done].
    by destruct (deserialize_data_prefixed s _ Hp Hrt).
  - intros Hp. unfold deserialize_data. by rewrite Hp.
Qed.

(** [from_text] on text without the image prefix yields one content that
    holds the text and has neither id nor name.  Whenever [from_text] returns,
    it returns one content without id and name, and text with the prefix has
    become an image. *)
Theorem from_text_cases (text : string) :
  (startswith text _image_prefix = false ->
   from_text text = Ok (mkObservation [mkContent None None (VStr text)]))
  /\ (forall o,
      from_text text = Ok o ->
      exists c,
        contents o = [c] /\ tool_call_id c = None /\ content_name c = None
        /\ (startswith text _image_prefix = false /\ data c = VStr text
            \/ startswith text _image_prefix = true /\ exists im, data c = VImage im)).
Proof.
  unfold from_text, Content_init. split.
  - intros Hp. unfold deserialize_data. by rewrite Hp.
  - intros o. destruct (deserialize_data (VStr text)) as [v|] eqn:Hv; simpl; [|done].
    destruct (data_type v); simpl; [|done]. intros [= <-].
    eexists. split; [done|]. split; [done|]. split; [done|]. simpl.
    destruct (startswith text _image_prefix) eqn:Hp.
    + right. split; [done|]. by apply (deserialize_data_prefixed text).
    + left. split; [done|]. unfold deserialize_data in Hv. rewrite Hp in Hv.
      by injection Hv as <-.
Qed.

Lemma mapM_res_Ok {A B} (f : A -> res B) (l : list A) (k : list B) :
  mapM f l = Ok k <-> Forall2 (fun x y => f x = Ok y) l k.
Proof.
  revert k. induction l as [|x l IH]; intros k; simpl.
  - split; [intros [= <-]; constructor|by inversion 1].
  - destruct (f x) as [y|e] eqn:Hx; simpl.
    + destruct (mapM f l) as [k'|e] eqn:Hl; simpl.
      * split.
        -- intros [= <-]. constructor; [done|]. by apply IH.
        -- inversion 1 as [|? y' ? k'' Hy Hk]; subst.
           apply IH in Hk. injection Hk as ->.
           rewrite Hx in Hy. injection Hy as ->. reflexivity.
      * split; [done|]. inversion 1 as [|? y' ? k'' Hy Hk]; subst.
        by apply IH in Hk.
    + split; [done|]. inversion 1; congruence.
Qed.

Lemma mapM_res_Raise {A B} (f : A -> res B) (l : list A) (e : pyexc) :
  mapM f l = Raise e ->
  exists pre x post,
    l = pre ++ x :: post /\ f x = Raise e /\ Forall (fun y => is_Ok (f y) = true) pre.
Proof.
  induction l as [|x l IH]; simpl; [done|].
  destruct (f x) as [y|e'] eqn:Hx; simpl.
  - destruct (mapM f l) as [k'|e'] eqn:Hl; simpl; [done|].
    intros [= ->]. destruct (IH eq_refl) as (pre & z & post & -> & Hz & Hpre).
    exists (x :: pre), z, post. split; [done|]. split; [done|].
    constructor; [by rewrite Hx|done].
  - intros [= ->]. by exists [], x, l.
Qed.

(** [to_llm_messages] returns the messages of the contents, one for each and
    in their order, exactly when every content has a message; otherwise it
    raises what the first content without a message raised. *)
Theorem to_llm_messages_pointwise (o : Observation) :
  (forall ms,
      to_llm_messages o = Ok ms
      <-> Forall2 (fun c m => to_message c = Ok m) (contents o) ms)
  /\ (forall e,
      to_llm_messages o = Raise e ->
      exists pre c post,
        contents o = pre ++ c :: post /\ to_message c = Raise e
        /\ Forall (fun c' => is_Ok (to_message c') = true) pre).
Proof.
  unfold to_llm_messages. split.
  - intros ms. apply mapM_res_Ok.
  - intros e. apply mapM_res_Raise.
Qed.

End content_properties.

(** An image written and read back with the stand-in codec. *)
Lemma image_roundtrip_witness :
  @core.deserialize_data samples.lib (VStr "data:image/png;base64,*")
  = Ok (VImage samples_more.pixel).
Proof.
  apply (@image_roundtrip samples.lib samples_more.pixel samples_more.pixel
           [Byte.x2a] "data:image/png;base64,*"); reflexivity.
Defined.

(* ===================================================================== *)
(** * Further properties: the tool                                        *)
(* ===================================================================== *)

Section more_tool_properties.

Import core tool.

Context {W : Type} {lib : PyLib}.

(** When the name is bound to an object that is no method, calling it raises
    a TypeError inside the [try]: [execute_action] returns the error
    observation for that TypeError and the world is as it was. *)
Theorem execute_action_not_callable
    (self : Tool W) (action : Action) (w : W) (v : pyvalue) :
  get_action_method self action w = Ok (Object v) ->
  exists e,
    call (Object v) (arguments action) w = (Raise e, w)
    /\ exc_class e = "TypeError"
    /\ execute_action self action w
       = (Ok (mkObservation
                [mkContent (action_id action) None
                   (VStr ("Error executing action " +:+ action_name action
                          +:+ ": " +:+ exc_str e))]), w).
Proof.
  intros Hfn. exists (TypeError "object is not callable").
  split; [done|]. split; [done|].
  by rewrite (execute_action_caught self action w w (Object v)
                (TypeError "object is not callable")).
Qed.

Variable from_function : attribute W -> res ActionSchema.

(** [get_actions] returns one schema for each member of the action space, in
    order, exactly when the tool object has every member and each has a
    schema; one member the object lacks makes the whole call raise. *)
Theorem get_actions_all_or_nothing (self : Tool W) (members : list string) (w : W) :
  (forall schemas,
      catalogue.get_actions from_function self members w = Ok schemas
      <-> Forall2 (fun name s =>
                     exists fn, self_attr self w name = Some fn
                                /\ from_function fn = Ok s) members schemas)
  /\ (forall name,
      name ∈ members -> self_attr self w name = None ->
      is_Ok (catalogue.get_actions from_function self members w) = false).
Proof.
  unfold catalogue.get_actions. split.
  - intros schemas. rewrite mapM_res_Ok.
    assert (forall name s,
               (fn ← catalogue.getattr_self self w name; from_function fn) = Ok s
               <-> exists fn, self_attr self w name = Some fn
                              /\ from_function fn = Ok s) as Hiff.
    { intros name s. unfold catalogue.getattr_self.
      destruct (self_attr self w name) as [fn|]; simpl.
      - split; [by exists fn|]. by intros (fn' & [= <-] & ?).
      - split; [done|]. by intros (fn' & [=] & ?). }
    split; intros H; (eapply Forall2_impl; [exact H|]);
      intros name s Hs; by apply Hiff.
  - intros name Hin Hmiss.
    destruct (mapM _ members) as [schemas|] eqn:Hm; [|done].
    apply mapM_res_Ok in Hm.
    apply list_elem_of_lookup in Hin as [i Hi].
    destruct (Forall2_lookup_l _ _ _ _ _ Hm Hi) as (s & _ & Hs).
    unfold catalogue.getattr_self in Hs. by rewrite Hmiss in Hs.
Qed.

End more_tool_properties.

(** [count] bound to the number 7. *)
Lemma execute_action_not_callable_witness :
  exists e,
    tool.call (tool.Object (VInt 7)) (core.arguments samples.count) 0 = (Raise e, 0)
    /\ exc_class e = "TypeError"
    /\ @tool.execute_action nat samples.lib samples_more.counter samples.count 0
       = (Ok (core.mkObservation
                [core.mkContent (core.action_id samples.count) None
                   (VStr ("Error executing action " +:+ core.action_name samples.count
                          +:+ ": " +:+ exc_str e))]), 0).
Proof.
  apply (@execute_action_not_callable nat samples.lib samples_more.counter
           samples.count 0 (VInt 7)).
  reflexivity.
Defined.

(** The browser implements [click] and [count] and lacks [scroll]. *)
Lemma get_actions_all_or_nothing_witness :
  catalogue.get_actions samples_more.schema_of samples.browser ["click"; "count"] 0
  = Ok [core.mkActionSchema "method" "" ∅; core.mkActionSchema "method" "" ∅]
  /\ is_Ok (catalogue.get_actions samples_more.schema_of samples.browser
              ["click"; "scroll"] 0) = false.
Proof.
  split.
  - destruct (get_actions_all_or_nothing samples_more.schema_of samples.browser
                ["click"; "count"] 0) as [H _].
    apply H. repeat constructor; eexists; split; reflexivity.
  - destruct (get_actions_all_or_nothing samples_more.schema_of samples.browser
                ["click"; "scroll"] 0) as [_ H].
    apply (H "scroll"); [|reflexivity]. set_solver.
Defined.

(* ===================================================================== *)
(** * Further properties: the step, reset and close                       *)
(* ===================================================================== *)

Section more_environment_properties.

Import core environment episode.

Context {W : Type} {lib : PyLib}.

Variable self : Environment W.

Local Abbreviation step_loop := (step_loop self).
Local Abbreviation step_finish := (step_finish self).
Local Abbreviation step := (step self).


Lemma stop_accepted_app (tr1 tr2 : list event) :
  stop_accepted (tr1 ++ tr2) = stop_accepted tr1 || stop_accepted tr2.
Proof. apply existsb_app. Qed.

Lemma finished_calls_app (tr1 tr2 : list event) :
  finished_calls (tr1 ++ tr2) = finished_calls tr1 ++ finished_calls tr2.
Proof. apply omap_app. Qed.

(** What asking for the stop adds to the trace. *)
Lemma stop_requested_new (a : Action) (s s1 : state W) (r : res bool) :
  stop_requested self a s = (r, s1) ->
  (is_stop a = false /\ r = Ok false /\ s1 = s)
  \/ (is_stop a = true /\ s1.2 = s.2 ++ [EAcceptStop r]
      /\ accept_agent_stop (task self) s.1 = (r, s1.1)).
Proof.
  unfold stop_requested, invoke, ret, is_stop.
  destruct (String.eqb _ _).
  - destruct (accept_agent_stop (task self) s.1) as [r' w'].
    intros [= <- <-]. by right.
  - intros [= <- <-]. by left.
Qed.

(** The trace of the loop: it never asks whether the task is finished, it
    hands a front part of the actions to the tool, a stop is accepted exactly
    when the loop ends with [done], and the observations gathered hold what
    the tool returned, in order, and then the stop message. *)
Lemma step_loop_trace
    (actions : list Action) (acc : list Observation) (s s' : state W)
    (r : res (list Observation * bool)) :
  step_loop actions acc s = (r, s') ->
  exists new,
    s'.2 = s.2 ++ new
    /\ finished_calls new = []
    /\ (exists k, dispatched new = take k actions)
    /\ match r with
       | Ok (results, d) =>
           stop_accepted new = d
           /\ contents (merge results)
              = contents (merge acc) ++ observed new
                ++ (if d then contents stop_observation else [])
       | Raise _ => stop_accepted new = false
       end.
Proof.
  revert acc s. induction actions as [|a rest IH]; intros acc s.
  - intros [= <- <-]. exists []. rewrite !app_nil_r.
    split; [done|]. split; [done|]. split; [by exists 0|]. by split.
  - rewrite step_loop_cons.
    destruct (stop_requested self a s) as [[[]|e] s1] eqn:Hstop;
      apply stop_requested_new in Hstop
        as [(_ & [=] & ->)|(_ & Hs1 & _)].
    + intros [= <- <-]. exists [EAcceptStop (Ok true)].
      split; [done|]. split; [done|]. split; [by exists 0|]. split; [done|].
      unfold merge. simpl. by rewrite map_app, concat_app.
    + destruct (execute_action (tool self) a s.1) as [[o|e] w'].
      * intros (new & -> & Hfin & [k Hk] & Hr)%IH.
        exists (EExecute a (Ok o) :: new). simpl.
        split; [by rewrite <- app_assoc|]. split; [done|].
        split; [exists (S k); simpl; by rewrite Hk|].
        destruct r as [[results d]|]; [|done].
        destruct Hr as [Hstop Hc]. split; [done|].
        unfold merge in *. simpl in *. rewrite Hc.
        unfold observed. simpl. rewrite map_app, concat_app. simpl.
        by rewrite app_nil_r, <- !app_assoc.
      * intros [= <- <-]. exists [EExecute a (Raise e)].
        split; [done|]. split; [done|]. split; [by exists 1|done].
    + destruct (execute_action (tool self) a s1.1) as [[o|e] w'].
      * intros (new & -> & Hfin & [k Hk] & Hr)%IH.
        exists (EAcceptStop (Ok false) :: EExecute a (Ok o) :: new). simpl.
        split; [by rewrite Hs1, <- !app_assoc|]. split; [done|].
        split; [exists (S k); simpl; by rewrite Hk|].
        destruct r as [[results d]|]; [|done].
        destruct Hr as [Hstop Hc]. split; [done|].
        unfold merge in *. simpl in *. rewrite Hc.
        unfold observed. simpl. rewrite map_app, concat_app. simpl.
        by rewrite app_nil_r, <- !app_assoc.
      * intros [= <- <-]. exists [EAcceptStop (Ok false); EExecute a (Raise e)].
        simpl. split; [by rewrite Hs1, <- app_assoc|].
        split; [done|]. split; [by exists 1|done].
    + intros [= <- <-]. exists [EAcceptStop (Raise e)].
      split; [done|]. split; [done|]. split; [by exists 0|done].
Qed.

Ltac finish_new :=
  eexists; split; [simpl; rewrite <- ?app_assoc; reflexivity|]; simpl;
  (split; [done|]); (split; [done|]); (split; [done|]).

(** The trace of what follows the loop: nothing is dispatched and no stop is
    asked for, the task is asked whether it is finished exactly when the loop
    did not end with [done], and the last call of a [step] that returns is the
    post-processing of the merged observation. *)
Lemma step_finish_trace
    (results : list Observation) (d : bool) (s s' : state W)
    (r : res EnvironmentOutput) :
  step_finish results d s = (r, s') ->
  exists new,
    s'.2 = s.2 ++ new
    /\ observed new = []
    /\ stop_accepted new = false
    /\ dispatched new = []
    /\ (if d then finished_calls new = []
        else exists fr, finished_calls new = [fr]
                        /\ forall out, r = Ok out -> fr = Ok (done out))
    /\ (forall out, r = Ok out ->
          (d = true -> done out = true)
          /\ last new = Some (EPostprocess (merge results) (Ok (obs out)))).
Proof.
  unfold environment.step_finish, bind, invoke, ret.
  destruct d.
  - rewrite orb_true_r.
    destruct (validate_task _ _ _) as [[[rw inf]|e] w1]; simpl.
    + destruct (obs_postprocess _ _ _) as [[o|e] w2]; intros [= <- <-];
        finish_new; (split; [done|]); [|done].
      by intros out [= <-].
    + intros [= <- <-]. finish_new. by split.
  - destruct (finished _ _) as [[d|e] w0]; simpl.
    + destruct (validate_per_step (task self) || d).
      * destruct (validate_task _ _ _) as [[[rw inf]|e] w1]; simpl.
        -- destruct (obs_postprocess _ _ _) as [[o|e] w2]; intros [= <- <-];
             finish_new; (split; [eexists; split; [done|]|]); try done.
           ++ by intros out [= <-].
           ++ by intros out [= <-].
        -- intros [= <- <-]. finish_new.
           split; [|done]. by eexists.
      * destruct (obs_postprocess _ _ _) as [[o|e] w2]; intros [= <- <-];
          finish_new; (split; [eexists; split; [done|]|]); try done.
        ++ by intros out [= <-].
        ++ by intros out [= <-].
    + intros [= <- <-]. finish_new. split; [|done]. by eexists.
Qed.

(** In every call of [step], the actions handed to the tool are a front part
    of the actions given, in their order: no action is dispatched twice, out
    of turn, or without having been given. *)
Theorem step_dispatches_prefix
    (action : step_input) (w w' : W) (tr : list event) (r : res EnvironmentOutput) :
  step action (w, []) = (r, (w', tr)) ->
  dispatched tr `prefix_of` normalize action.
Proof.
  unfold environment.step, bind.
  destruct (step_loop (normalize action) [] (w, [])) as [[[results d]|e] s1] eqn:Hloop;
    apply step_loop_trace in Hloop as (new & Hs1 & _ & [k Hk] & _);
    simpl in Hs1.
  - intros (fin & Hfin & _ & _ & Hd & _)%step_finish_trace. simpl in Hfin.
    rewrite Hfin, Hs1, !dispatched_app, Hd, Hk, app_nil_r.
    apply prefix_take.
  - intros [= <- ->]. simpl in Hs1. rewrite Hs1, Hk. apply prefix_take.
Qed.


(** [step] asks the task whether it is finished at most once, and not at all
    once the task has accepted a stop.  In the output of a [step] that
    returns, [done] is true after an accepted stop and is otherwise what
    [finished] returned. *)
Theorem finished_consulted
    (action : step_input) (w w' : W) (tr : list event) (r : res EnvironmentOutput) :
  step action (w, []) = (r, (w', tr)) ->
  length (finished_calls tr) <= 1
  /\ (stop_accepted tr = true -> finished_calls tr = [])
  /\ (forall out, r = Ok out ->
        (stop_accepted tr = true /\ done out = true)
        \/ (stop_accepted tr = false /\ finished_calls tr = [Ok (done out)])).
Proof.
  unfold environment.step, bind.
  destruct (step_loop (normalize action) [] (w, [])) as [[[results d]|e] s1] eqn:Hloop;
    apply step_loop_trace in Hloop as (new & Hs1 & Hnofin & _ & Hr);
    simpl in Hs1.
  - destruct Hr as [Hstop _].
    intros (fin & Htr & _ & Hacc & _ & Hfin & Hout)%step_finish_trace.
    simpl in Htr.
    rewrite Htr, Hs1, finished_calls_app, stop_accepted_app, Hnofin, Hacc, Hstop.
    rewrite orb_false_r. simpl. destruct d.
    + rewrite Hfin. split; [simpl; lia|]. split; [done|].
      intros out Hr. left. split; [done|]. by apply (Hout out Hr).
    + destruct Hfin as (fr & -> & Hfr). split; [done|]. split; [done|].
      intros out Hr. right. by rewrite (Hfr out Hr).
  - intros [= <- ->]. simpl in Hs1. rewrite Hs1, Hnofin, Hr. simpl.
    split; [lia|]. by split.
Qed.










End more_environment_properties.

Section episode_properties.

Import core episode.

Context {W : Type}.

(** [reset] resets the tool before it sets the task up, and does not set the
    task up when resetting the tool raised.  The output it returns holds the
    observation and the info of the setup, with reward 0.0 and [done] false
    whatever the setup returned. *)
Theorem reset_order_and_defaults
    (self : Hooks W) (w w' : W) (r : res EnvironmentOutput) (calls : list call) :
  reset self w = (r, w', calls) ->
  (forall e w1,
      tool_reset self w = (Raise e, w1) ->
      r = Raise e /\ w' = w1 /\ calls = [CReset (Raise e)])
  /\ (forall out,
      r = Ok out ->
      reward out = 0%float /\ done out = false
      /\ exists u w1,
          tool_reset self w = (Ok u, w1)
          /\ task_setup self w1 = (Ok (obs out, info out), w')
          /\ calls = [CReset (Ok u); CSetup (Ok (obs out, info out))]).
Proof.
  unfold reset. destruct (tool_reset self w) as [[u|e] w1].
  - destruct (task_setup self w1) as [[[o i]|e] w2] eqn:Hsetup; intros [= <- <- <-].
    + split; [done|]. intros out [= <-]. simpl. split; [done|]. split; [done|].
      by exists u, w1.
    + by split.
  - intros [= <- <- <-]. split; [|done]. by intros e' w1' [= <- <-].
Qed.

(** [close] tears the task down before it closes the tool, and when the
    teardown raises the tool is not closed: the exception of the teardown is
    raised and [close] of the tool is never called. *)
Theorem close_order
    (self : Hooks W) (w w' : W) (r : res unit) (calls : list call) :
  close self w = (r, w', calls) ->
  (forall e w1,
      task_teardown self w = (Raise e, w1) ->
      r = Raise e /\ w' = w1 /\ calls = [CTeardown (Raise e)])
  /\ (forall u w1,
      task_teardown self w = (Ok u, w1) ->
      tool_close self w1 = (r, w') /\ calls = [CTeardown (Ok u); CClose r]).
Proof.
  unfold close. destruct (task_teardown self w) as [[u|e] w1].
  - destruct (tool_close self w1) as [r2 w2] eqn:Hclose. intros [= <- <- <-].
    split; [done|]. by intros u' w1' [= <- <-].
  - intros [= <- <- <-]. split; [|done]. by intros e' w1' [= <- <-].
Qed.

End episode_properties.

(** [click], the stop action and [crash] on the task that accepts the stop. *)
Lemma step_dispatches_prefix_witness :
  exists r w' tr,
    @environment.step nat samples.lib samples.accepting_env
      (environment.Many [samples.click; samples.final_step; samples.crash]) (0, [])
    = (r, (w', tr))
    /\ environment.dispatched tr
       `prefix_of` environment.normalize
         (environment.Many [samples.click; samples.final_step; samples.crash]).
Proof.
  eexists _, _, _. split; [reflexivity|].
  eapply (@step_dispatches_prefix nat samples.lib samples.accepting_env
            (environment.Many [samples.click; samples.final_step; samples.crash]) 0).
  reflexivity.
Defined.


(** One [click]: the task is asked once whether it is finished. *)
Lemma finished_consulted_witness :
  exists r w' tr,
    @environment.step nat samples.lib samples.accepting_env
      (environment.One samples.click) (0, []) = (r, (w', tr))
    /\ length (episode.finished_calls tr) <= 1
    /\ (episode.stop_accepted tr = true -> episode.finished_calls tr = [])
    /\ (forall out, r = Ok out ->
          (episode.stop_accepted tr = true /\ core.done out = true)
          \/ (episode.stop_accepted tr = false
              /\ episode.finished_calls tr = [Ok (core.done out)])).
Proof.
  eexists _, _, _. split; [reflexivity|].
  eapply (@finished_consulted nat samples.lib samples.accepting_env
            (environment.One samples.click) 0).
  reflexivity.
Defined.



(** Closing the episode whose teardown fails: the tool stays open. *)
Lemma close_order_witness :
  episode.close samples_more.leaky 0
  = (Raise (ValueError "teardown failed"), 0,
     [episode.CTeardown (Raise (ValueError "teardown failed"))]).
Proof.
  destruct (episode.close samples_more.leaky 0) as [[r w'] calls] eqn:Hclose.
  destruct (close_order samples_more.leaky 0 w' r calls Hclose) as [H _].
  destruct (H (ValueError "teardown failed") 0 eq_refl) as (-> & -> & ->).
  reflexivity.
Defined.

(** Resetting the same episode: the setup greets. *)
Lemma reset_order_and_defaults_witness :
  exists out w' calls,
    episode.reset samples_more.leaky 0 = (Ok out, w', calls)
    /\ core.reward out = 0%float /\ core.done out = false
    /\ exists u w1,
        episode.tool_reset samples_more.leaky 0 = (Ok u, w1)
        /\ episode.task_setup samples_more.leaky w1
           = (Ok (core.obs out, core.info out), w')
        /\ calls = [episode.CReset (Ok u);
                    episode.CSetup (Ok (core.obs out, core.info out))].
Proof.
  eexists _, _, _. split; [reflexivity|].
  eapply (reset_order_and_defaults samples_more.leaky 0); reflexivity.
Defined.
